(** * pyoptical: the OptiCal photometer driver (src/pyoptical.py)

    A shallow embedding of the Python 2 module [pyoptical] and the
    properties of its serial protocol: byte decoding ([to_int]), response
    validation ([_check_return]), the eeprom and ADC exchanges, the
    constructor and the two measurement accessors.

    Python [str] (a byte string in Python 2) is [string]; Python [int]/[long]
    is [Z]; Python [float] is an IEEE 754 binary64 value ([spec_float] at
    precision 53); exceptions are values of [exn]; methods are state
    transformers on the driver object, its serial port and standard output. *)

From Stdlib Require Import ZArith NArith List String Ascii Bool Lia.
From Stdlib Require Import DecimalString SpecFloat.
Import ListNotations.

Local Open Scope Z_scope.

(** ** Exceptions *)

(** The three exception classes of the module carry the description they are
    raised with; the interpreter's own exceptions carry the name involved
    where there is one. *)
Inductive exn : Type :=
| OptiCalException (message : string)
| NACKException (message : string)
| TimeoutException (message : string)
| ValueError
| IndexError
| AttributeError (attribute : string)
| UnboundLocalError (variable : string)
| ZeroDivisionError
| OverflowError
| TypeError.

Definition result (A : Type) : Type := (exn + A)%type.

(** ** Python builtins used by the module *)

Module Py.

(** A one-character [str]. *)
Definition char (c : ascii) : string := String c EmptyString.

(** The value, in [range(256)], of a character. *)
Definition byte_value (c : ascii) : Z := Z.of_N (N_of_ascii c).

(** [ord(s)]: defined on strings of length one. *)
Definition ord (s : string) : result Z :=
  match s with
  | String c EmptyString => inr (byte_value c)
  | _ => inl TypeError
  end.

(** [chr(i)]: defined on [range(256)], [ValueError] elsewhere. *)
Definition chr (i : Z) : result string :=
  if (0 <=? i) && (i <? 256)
  then inr (char (ascii_of_N (Z.to_N i)))
  else inl ValueError.

(** [s[i]] for a non-negative index. *)
Definition getitem (s : string) (i : nat) : result string :=
  match String.get i s with
  | Some c => inr (char c)
  | None => inl IndexError
  end.

(** [s[:-1]]. *)
Definition drop_last (s : string) : string :=
  String.substring 0 (String.length s - 1) s.

(** [sub in s] on [str]: [sub] occurs as a substring of [s]. *)
Fixpoint contains (sub s : string) : bool :=
  String.prefix sub s ||
  match s with
  | EmptyString => false
  | String _ s' => contains sub s'
  end.

(** ["".join(l)]. *)
Definition join (l : list string) : string := String.concat EmptyString l.

(** [range(start, stop)]. *)
Definition range (start stop : Z) : list Z :=
  map (fun k => start + Z.of_nat k) (seq 0 (Z.to_nat (stop - start))).

Definition hex_digit (n : N) : ascii :=
  match n with
  | 0 => "0" | 1 => "1" | 2 => "2" | 3 => "3" | 4 => "4" | 5 => "5"
  | 6 => "6" | 7 => "7" | 8 => "8" | 9 => "9" | 10 => "a" | 11 => "b"
  | 12 => "c" | 13 => "d" | 14 => "e" | _ => "f"
  end%N%char.

(** [s.encode('hex')]: two lower-case hexadecimal digits per character. *)
Fixpoint encode_hex (s : string) : string :=
  match s with
  | EmptyString => EmptyString
  | String c s' =>
      let n := N_of_ascii c in
      String (hex_digit (n / 16)%N)
        (String (hex_digit (n mod 16)%N) (encode_hex s'))
  end.

Definition digit_value (c : ascii) : option Z :=
  let n := byte_value c in
  if (48 <=? n) && (n <=? 57) then Some (n - 48)
  else if (97 <=? n) && (n <=? 102) then Some (n - 87)
  else if (65 <=? n) && (n <=? 70) then Some (n - 55)
  else None.

Fixpoint parse_digits (acc : Z) (s : string) : option Z :=
  match s with
  | EmptyString => Some acc
  | String c s' =>
      match digit_value c with
      | Some d => parse_digits (16 * acc + d) s'
      | None => None
      end
  end.

(** [int(s, 16)] on a string of hexadecimal digits: [ValueError] on the
    empty string and on any other character.  (Surrounding blanks, a sign
    and a [0x] prefix, which [int] also accepts, never occur in the output
    of [encode('hex')] and are rejected here.) *)
Definition int16 (s : string) : result Z :=
  match s with
  | EmptyString => inl ValueError
  | _ => match parse_digits 0 s with
         | Some z => inr z
         | None => inl ValueError
         end
  end.

(** [str(i)] of an integer, as [print] and ["%d"] show it. *)
Definition str_of_int (i : Z) : string := NilZero.string_of_int (Z.to_int i).

End Py.

(** ** Module constants *)

Definition ACK : string := Py.char (ascii_of_N 6).
Definition NACK : string := Py.char (ascii_of_N 21).

(** ** [to_int] *)

(** [to_int(list_of_bytes)] reverses its argument in place and parses the
    hexadecimal rendering of the joined bytes.  The first component is the
    content of the caller's list object after the call, the second the
    value returned or the exception raised. *)
Definition to_int (list_of_bytes : list string) : list string * result Z :=
  let list_of_bytes := rev list_of_bytes in
  (list_of_bytes, Py.int16 (Py.encode_hex (Py.join list_of_bytes))).

(** The decoding as the specification words it: the sum of
    [byte[i] << (8*i)] over the bytes as received. *)
Definition little_endian_sum (bytes : list ascii) : Z :=
  fold_right Z.add 0
    (map (fun i => Z.shiftl (Py.byte_value (nth i bytes Ascii.zero)) (8 * Z.of_nat i))
         (seq 0 (List.length bytes))).

(** The value of a byte string read most significant byte first, on top of
    an accumulator: what the hexadecimal rendering denotes. *)
Definition big_endian (acc : Z) (l : list ascii) : Z :=
  fold_left (fun a c => 256 * a + Py.byte_value c) l acc.

(** *** The argument of [to_int] as a shared object *)

(** List objects live in a store, by reference; a caller and [to_int] hold
    the same reference. *)
Definition ref : Type := nat.
Definition store : Type := ref -> option (list string).

Definition store_set (r : ref) (l : list string) (h : store) : store :=
  fun r' => if Nat.eqb r' r then Some l else h r'.

(** The call [to_int(x)] where [x] refers to the list object at [r]: the
    object is left as [to_int] leaves it. *)
Definition call_to_int (r : ref) (h : store) : store * result Z :=
  match h r with
  | Some l => let (l', v) := to_int l in (store_set r l' h, v)
  | None => (h, inl TypeError)
  end.

(** ** Floating point *)

(** Python's [float] is binary64.  The operations are those of [SpecFloat]
    at precision 53; the conversions and the division raise where Python
    raises. *)
Module Float.

Definition prec : Z := 53.
Definition emax : Z := 1024.

Definition float : Type := spec_float.

(** Conversion of an integer operand in mixed arithmetic: rounded to
    nearest even, [OverflowError] when out of range. *)
Definition of_int (i : Z) : result float :=
  match binary_normalize prec emax i 0 false with
  | S754_infinity _ => inl OverflowError
  | f => inr f
  end.

Definition mul (x y : float) : float := SFmul prec emax x y.

(** [x / y] on floats: [ZeroDivisionError] on a zero divisor. *)
Definition div (x y : float) : result float :=
  match y with
  | S754_zero _ => inl ZeroDivisionError
  | _ => inr (SFdiv prec emax x y)
  end.

(** The literals [524288.0], [1.e-6] and [1.e-15] as binary64 values. *)
Definition lit_524288 : float := S754_finite false 4503599627370496 (-33).
Definition lit_1e_6 : float := S754_finite false 4722366482869645 (-72).
Definition lit_1e_15 : float := S754_finite false 5070602400912918 (-102).

End Float.

(** ** String objects and identity *)

(** The module compares modes with [is], that is by object identity.  A
    [str] object is its identity together with its content. *)
Record pystr : Type := { str_id : nat; str_value : string }.

(** The literals ['current'] and ['voltage'] of the module: one interned
    object each, shared by every occurrence. *)
Definition lit_current : pystr := {| str_id := 1; str_value := "current" |}.
Definition lit_voltage : pystr := {| str_id := 2; str_value := "voltage" |}.

(** [a is b]. *)
Definition py_is (a b : pystr) : bool := Nat.eqb (str_id a) (str_id b).

(** An object that has the identity of an interned literal is that
    literal. *)
Definition interned (s : pystr) : Prop :=
  (str_id s = str_id lit_current -> s = lit_current) /\
  (str_id s = str_id lit_voltage -> s = lit_voltage).

(** ** The serial port *)

(** The port as the driver sees it: the bytes written so far, and what each
    of the coming [read] calls will receive before its timeout (nothing
    scripted: nothing arrives). *)
Record Serial : Type := { written : string; incoming : list string }.

(** [port.write(data)]. *)
Definition Serial_write (data : string) (port : Serial) : Serial :=
  {| written := written port ++ data; incoming := incoming port |}.

(** [port.read(size)]: at most [size] bytes of what arrives. *)
Definition Serial_read (size : nat) (port : Serial) : string * Serial :=
  match incoming port with
  | [] => (EmptyString, port)
  | r :: rest =>
      (String.substring 0 size r, {| written := written port; incoming := rest |})
  end.

(** ** The driver object *)

(** The attributes of an [OptiCal] instance; an attribute that has not been
    assigned yet is [None]. *)
Record OptiCal : Type := {
  phot : Serial;
  mode : option pystr;
  V_ref : option Z;
  Z_count : option Z;
  R_feed : option Z;
  R_gain : option Z;
  K_cal : option Z
}.

(** The state a method runs in: the instance and what has been printed. *)
Record World : Type := { self : OptiCal; stdout : list string }.

Definition with_phot (p : Serial) (o : OptiCal) : OptiCal :=
  {| phot := p; mode := mode o; V_ref := V_ref o; Z_count := Z_count o;
     R_feed := R_feed o; R_gain := R_gain o; K_cal := K_cal o |}.
Definition with_mode (m : pystr) (o : OptiCal) : OptiCal :=
  {| phot := phot o; mode := Some m; V_ref := V_ref o; Z_count := Z_count o;
     R_feed := R_feed o; R_gain := R_gain o; K_cal := K_cal o |}.
Definition with_V_ref (v : Z) (o : OptiCal) : OptiCal :=
  {| phot := phot o; mode := mode o; V_ref := Some v; Z_count := Z_count o;
     R_feed := R_feed o; R_gain := R_gain o; K_cal := K_cal o |}.
Definition with_Z_count (v : Z) (o : OptiCal) : OptiCal :=
  {| phot := phot o; mode := mode o; V_ref := V_ref o; Z_count := Some v;
     R_feed := R_feed o; R_gain := R_gain o; K_cal := K_cal o |}.
Definition with_R_feed (v : Z) (o : OptiCal) : OptiCal :=
  {| phot := phot o; mode := mode o; V_ref := V_ref o; Z_count := Z_count o;
     R_feed := Some v; R_gain := R_gain o; K_cal := K_cal o |}.
Definition with_R_gain (v : Z) (o : OptiCal) : OptiCal :=
  {| phot := phot o; mode := mode o; V_ref := V_ref o; Z_count := Z_count o;
     R_feed := R_feed o; R_gain := Some v; K_cal := K_cal o |}.
Definition with_K_cal (v : Z) (o : OptiCal) : OptiCal :=
  {| phot := phot o; mode := mode o; V_ref := V_ref o; Z_count := Z_count o;
     R_feed := R_feed o; R_gain := R_gain o; K_cal := Some v |}.

(** ** Methods as state transformers *)

(** A method body: from a state to a returned value or a raised exception,
    and the state it leaves. *)
Definition M (A : Type) : Type := World -> result A * World.

Definition ret {A : Type} (a : A) : M A := fun w => (inr a, w).

Definition raise {A : Type} (e : exn) : M A := fun w => (inl e, w).

Definition bind {A B : Type} (c : M A) (k : A -> M B) : M B :=
  fun w =>
    match c w with
    | (inr a, w') => k a w'
    | (inl e, w') => (inl e, w')
    end.

Definition lift {A : Type} (r : result A) : M A := fun w => (r, w).

Declare Scope method_scope.
Delimit Scope method_scope with method.
Notation "x <- c ;; k" := (bind c (fun x => k))
  (at level 61, c at next level, right associativity) : method_scope.
Notation "c ;; k" := (bind c (fun _ => k))
  (at level 61, right associativity) : method_scope.
Local Open Scope method_scope.

Definition update_self (f : OptiCal -> OptiCal) : M unit :=
  fun w => (inr tt, {| self := f (self w); stdout := stdout w |}).

(** Reading an attribute that may not exist yet. *)
Definition getattr {A : Type} (name : string) (field : OptiCal -> option A)
  : M A :=
  fun w =>
    match field (self w) with
    | Some a => (inr a, w)
    | None => (inl (AttributeError name), w)
    end.

(** [self.phot.write(data)]. *)
Definition phot_write (data : string) : M unit :=
  update_self (fun o => with_phot (Serial_write data (phot o)) o).

(** [self.phot.read(size)]. *)
Definition phot_read (size : nat) : M string :=
  fun w =>
    let (r, p) := Serial_read size (phot (self w)) in
    (inr r, {| self := with_phot p (self w); stdout := stdout w |}).

(** A [print] statement: one line on standard output. *)
Definition print (line : string) : M unit :=
  fun w => (inr tt, {| self := self w; stdout := stdout w ++ [line] |}).

(** ** The class [OptiCal] *)

Definition _check_return (ret_ description : string) : M unit :=
  if String.eqb ret_ EmptyString then raise (TimeoutException description)
  else if Py.contains NACK ret_ then raise (NACKException description)
  else ret tt.

Definition _send_command (command description : string) : M unit :=
  phot_write command ;;
  ret_ <- phot_read 1 ;;
  _check_return ret_ description.

Definition _calibrate : M unit := _send_command "C" "calibrate".

Definition _set_current_mode : M unit :=
  update_self (with_mode lit_current) ;;
  _send_command "I" "set current mode".

Definition _set_voltage_mode : M unit :=
  update_self (with_mode lit_voltage) ;;
  _send_command "V" "set voltage mode".

Definition _read_eeprom_single (address : Z) : M string :=
  command <- lift (Py.chr (128 + address)) ;;
  phot_write command ;;
  ret_ <- phot_read 2 ;;
  _check_return ret_
    ("reading eeprom at address " ++ Py.str_of_int address) ;;
  lift (Py.getitem ret_ 0).

(** The loop of [_read_eeprom]: [ret.append] of each address read. *)
Fixpoint _read_eeprom_loop (addresses : list Z) (ret_ : list string)
  : M (list string) :=
  match addresses with
  | [] => ret ret_
  | i :: rest =>
      b <- _read_eeprom_single i ;;
      _read_eeprom_loop rest (ret_ ++ [b])
  end.

Definition _read_eeprom (start stop : Z) : M (list string) :=
  _read_eeprom_loop (Py.range start (stop + 1)) [].

(** [to_int] on a list no one else holds: only the value matters. *)
Definition to_int_value (l : list string) : M Z := lift (snd (to_int l)).

Definition _read_ref_defs : M unit :=
  l <- _read_eeprom 16 19 ;; v <- to_int_value l ;;
  update_self (with_V_ref v) ;;
  l <- _read_eeprom 32 35 ;; v <- to_int_value l ;;
  update_self (with_Z_count v) ;;
  l <- _read_eeprom 48 51 ;; v <- to_int_value l ;;
  update_self (with_R_feed v) ;;
  l <- _read_eeprom 64 67 ;; v <- to_int_value l ;;
  update_self (with_R_gain v) ;;
  l <- _read_eeprom 96 99 ;; v <- to_int_value l ;;
  update_self (with_K_cal v).

Definition _read_adc : M Z :=
  phot_write "L" ;;
  ret_ <- phot_read 4 ;;
  _check_return ret_ "reading adc value" ;;
  let ret_ := Py.drop_last ret_ in
  b0 <- lift (Py.getitem ret_ 0) ;;
  b1 <- lift (Py.getitem ret_ 1) ;;
  b2 <- lift (Py.getitem ret_ 2) ;;
  adc <- to_int_value [b0; b1; b2] ;;
  print ("adc_mine " ++ Py.str_of_int adc) ;;
  o0 <- lift (Py.ord b0) ;;
  o1 <- lift (Py.ord b1) ;;
  o2 <- lift (Py.ord b2) ;;
  print (Py.str_of_int (o0 + Z.shiftl o1 8 + Z.shiftl o2 16)) ;;
  zero <- getattr "Z_count" Z_count ;;
  ret (adc - zero - 524288).

Definition _get_measurement : M Float.float :=
  ADC_adjust <- _read_adc ;;
  adc_float <- lift (Float.of_int ADC_adjust) ;;
  ratio <- lift (Float.div adc_float Float.lit_524288) ;;
  v_ref <- getattr "V_ref" V_ref ;;
  v_ref_float <- lift (Float.of_int v_ref) ;;
  let numerator := Float.mul (Float.mul ratio v_ref_float) Float.lit_1e_6 in
  m <- getattr "mode" mode ;;
  denominator <-
    (if py_is m lit_current then
       r_feed <- getattr "R_feed" R_feed ;;
       k_cal <- getattr "K_cal" K_cal ;;
       product <- lift (Float.of_int (r_feed * k_cal)) ;;
       ret (Some (Float.mul product Float.lit_1e_15))
     else ret None) ;;
  match denominator with
  | Some d => lift (Float.div numerator d)
  | None => raise (UnboundLocalError "denominator")
  end.

Definition get_luminance : M Float.float :=
  m <- getattr "mode" mode ;;
  if negb (py_is m lit_current)
  then raise (OptiCalException
                "get_luminance() is only available in 'current' mode")
  else _get_measurement.

Definition get_voltage : M Float.float :=
  m <- getattr "mode" mode ;;
  if negb (py_is m lit_voltage)
  then raise (OptiCalException
                "get_voltage() is only available in 'voltage' mode")
  else _get_measurement.

(** The instance [__init__] starts from: [phot] is the port that
    [serial.Serial(com_port, timeout=timeout)] opened, nothing else is
    assigned. *)
Definition new_instance (port : Serial) : World :=
  {| self := {| phot := port; mode := None; V_ref := None; Z_count := None;
                R_feed := None; R_gain := None; K_cal := None |};
     stdout := [] |}.

Definition unsupported_mode (m : pystr) : string :=
  "Mode: '" ++ str_value m ++ "' is not supported by "
  ++ "OptiCal, either use 'current'(default) or 'voltage'".

(** [OptiCal.__init__], after the port has been opened. *)
Definition __init__ (mode_ : pystr) : M unit :=
  _calibrate ;;
  _read_ref_defs ;;
  if py_is mode_ lit_current then _set_current_mode
  else if py_is mode_ lit_voltage then _set_voltage_mode
  else raise (OptiCalException (unsupported_mode mode_)).

(** [OptiCal(com_port, mode)]: the outcome of the constructor and the state
    it leaves (the port is observable whatever the outcome). *)
Definition construct (port : Serial) (mode_ : pystr) : result unit * World :=
  __init__ mode_ (new_instance port).

Definition _read_product_type : M (list string) := _read_eeprom 0 1.
Definition _read_optical_serial_number : M (list string) := _read_eeprom 2 5.
Definition _read_firmware_version : M (list string) := _read_eeprom 6 7.
Definition _read_probe_serial_number : M (list string) := _read_eeprom 80 95.
Definition _read_ref_voltage : M (list string) := _read_eeprom 16 19.
Definition _read_zero_error : M (list string) := _read_eeprom 32 35.
Definition _read_feedback_resistor : M (list string) := _read_eeprom 48 51.
Definition _read_voltage_gain_resistor : M (list string) := _read_eeprom 64 67.
Definition _read_probe_calibration : M (list string) := _read_eeprom 96 99.

(** ** Vocabulary of the statements *)

(** The two status bytes as characters. *)
Definition ack_byte : ascii := ascii_of_N 6.
Definition nack_byte : ascii := ascii_of_N 21.

(** A byte occurs in a response. *)
Definition occurs (c : ascii) (response : string) : Prop :=
  In c (list_ascii_of_string response).

(** The command byte of the eeprom read at [address]. *)
Definition eeprom_command (address : Z) : string :=
  Py.char (ascii_of_N (Z.to_N (128 + address))).

(** What the next [read(size)] on the port of [w] returns. *)
Definition next_response (size : nat) (w : World) : string :=
  fst (Serial_read size (phot (self w))).

(** The state after [data] has been written and one response consumed. *)
Definition exchanged (data : string) (w : World) : World :=
  {| self :=
       with_phot {| written := written (phot (self w)) ++ data;
                    incoming := tl (incoming (phot (self w))) |} (self w);
     stdout := stdout w |}.

(** The state after an exchange for each of [commands], in order. *)
Definition exchanged_all (commands : list string) (w : World) : World :=
  fold_left (fun w c => exchanged c w) commands w.

(** The command bytes of [_read_eeprom(start, stop)]. *)
Definition eeprom_commands (start stop : Z) : string :=
  Py.join (map eeprom_command (Py.range start (stop + 1))).

(** The bytes a successful constructor writes: calibrate, the five ranges
    of reference constants, the mode command. *)
Definition init_commands (mode_command : string) : string :=
  ("C" ++ eeprom_commands 16 19 ++ eeprom_commands 32 35
       ++ eeprom_commands 48 51 ++ eeprom_commands 64 67
       ++ eeprom_commands 96 99 ++ mode_command)%string.

(** The first byte of a response. *)
Definition head_byte (response : string) : ascii :=
  match response with
  | String c _ => c
  | EmptyString => Ascii.zero
  end.

(** The integer that [count] eeprom responses, taken after the first
    [skip] responses, carry in their first bytes. *)
Definition decoded (skip count : nat) (responses : list string) : Z :=
  little_endian_sum (map head_byte (firstn count (skipn skip responses))).

(** The calibration constants and the mode of an instance. *)
Definition attributes (o : OptiCal)
  : option pystr * (option Z * option Z * option Z * option Z * option Z) :=
  (mode o, (V_ref o, Z_count o, R_feed o, R_gain o, K_cal o)).

(** A method body that leaves mode and constants as they are, whatever
    its outcome. *)
Definition keeps_attributes {A : Type} (c : M A) : Prop :=
  forall w, attributes (self (snd (c w))) = attributes (self w).

(** A method body that never raises [TimeoutException]. *)
Definition never_times_out {A : Type} (c : M A) : Prop :=
  forall w d, fst (c w) <> inl (TimeoutException d).

(** An instance on which measurements can be taken: the mode is one of the
    two literals and the five constants are assigned. *)
Definition Ready (w : World) : Prop :=
  (mode (self w) = Some lit_current \/ mode (self w) = Some lit_voltage) /\
  V_ref (self w) <> None /\ Z_count (self w) <> None /\
  R_feed (self w) <> None /\ R_gain (self w) <> None /\
  K_cal (self w) <> None.

(** *** A scripted device *)

(** A device that acknowledges calibration, answers the twenty eeprom reads
    with [V_ref = 1000000], [Z_count = 0], [R_feed = 1], [R_gain = 1] and
    [K_cal = 1000], acknowledges the mode command and answers one ADC read
    with [00 00 09 ACK]. *)
Definition example_port : Serial :=
  {| written := "";
     incoming :=
       ACK
       :: map (fun n => String (ascii_of_N n) ACK)
            [64; 66; 15; 0;  0; 0; 0; 0;  1; 0; 0; 0;  1; 0; 0; 0;
             232; 3; 0; 0]%N
       ++ [ACK; String "000" (String "000" (String "009" ACK))] |}.

(** A mode string that is neither of the two literals. *)
Definition mode_foo : pystr := {| str_id := 7; str_value := "foo" |}.

(** ** Vocabulary of the further properties *)

(** A response that passes the validator when read with [size]: something
    arrives and no NACK is among the bytes read. *)
Definition acceptable (size : nat) (response : string) : Prop :=
  String.substring 0 size response <> EmptyString /\
  ~ occurs nack_byte (String.substring 0 size response).

(** The same, as a test. *)
Definition acceptableb (size : nat) (response : string) : bool :=
  negb (String.eqb (String.substring 0 size response) EmptyString)
  && negb (Py.contains NACK (String.substring 0 size response)).

(** The number of addresses of [_read_eeprom(start, stop)]. *)
Definition span (start stop : Z) : nat := Z.to_nat (stop + 1 - start).

(** The description [_read_eeprom_single] gives the validator. *)
Definition eeprom_description (address : Z) : string :=
  ("reading eeprom at address " ++ Py.str_of_int address)%string.

(** The exception the validator raises on a response it rejects. *)
Definition rejection (response description : string) : exn :=
  if String.eqb response EmptyString then TimeoutException description
  else NACKException description.

(** [str(e)] for the exception classes of the module ([__str__] of
    [NACKException] and [TimeoutException]; [OptiCalException] shows its
    message). *)
Definition exn_str (e : exn) : option string :=
  match e with
  | OptiCalException message => Some message
  | NACKException message =>
      Some ("OptiCal sent a NACK while trying to: " ++ message)%string
  | TimeoutException message =>
      Some ("OptiCal timeout while trying to: " ++ message)%string
  | _ => None
  end.

(** A method body that leaves the instance, its port included, as it is
    (it may print). *)
Definition keeps_self {A : Type} (c : M A) : Prop :=
  forall w, self (snd (c w)) = self w.

(** * Properties *)

(** ** Decoding: [to_int] *)

Lemma digit_value_high (c : ascii) :
  Py.digit_value (Py.hex_digit (N_of_ascii c / 16)) = Some (Py.byte_value c / 16).
Proof.
  destruct c as [[] [] [] [] [] [] [] []]; vm_compute; reflexivity.
Qed.

Lemma digit_value_low (c : ascii) :
  Py.digit_value (Py.hex_digit (N_of_ascii c mod 16))
  = Some (Py.byte_value c mod 16).
Proof.
  destruct c as [[] [] [] [] [] [] [] []]; vm_compute; reflexivity.
Qed.

Lemma parse_digits_encode_hex (s : string) (acc : Z) :
  Py.parse_digits acc (Py.encode_hex s)
  = Some (big_endian acc (list_ascii_of_string s)).
Proof.
  revert acc. induction s as [|c s IH]; intros acc; [reflexivity|].
  cbn [Py.encode_hex Py.parse_digits list_ascii_of_string].
  rewrite digit_value_high, digit_value_low, IH.
  unfold big_endian. cbn [fold_left]. do 2 f_equal.
  pose proof (Z.div_mod (Py.byte_value c) 16). lia.
Qed.

Lemma join_chars (l : list ascii) :
  Py.join (map Py.char l) = string_of_list_ascii l.
Proof.
  unfold Py.join. induction l as [|c l IH]; [reflexivity|].
  cbn [map String.concat]. destruct (map Py.char l) eqn:E.
  - destruct l; [reflexivity | discriminate].
  - cbn [Py.char String.append string_of_list_ascii]. f_equal. exact IH.
Qed.

Lemma little_endian_sum_cons (c : ascii) (l : list ascii) :
  little_endian_sum (c :: l) = Py.byte_value c + 256 * little_endian_sum l.
Proof.
  unfold little_endian_sum. cbn [List.length seq map fold_right nth].
  rewrite Z.shiftl_0_r. f_equal.
  rewrite <- seq_shift, map_map.
  generalize (seq 0 (List.length l)) as idx.
  induction idx as [|i idx IH]; [reflexivity|].
  cbn [map fold_right nth]. rewrite IH.
  replace (8 * Z.of_nat (S i)) with (8 * Z.of_nat i + 8) by lia.
  rewrite <- Z.shiftl_shiftl by lia.
  rewrite (Z.shiftl_mul_pow2 _ 8) by lia. lia.
Qed.

Lemma big_endian_rev (l : list ascii) :
  big_endian 0 (rev l) = little_endian_sum l.
Proof.
  induction l as [|c l IH]; [reflexivity|].
  rewrite little_endian_sum_cons. unfold big_endian in *.
  cbn [rev]. rewrite fold_left_app. cbn [fold_left]. rewrite IH. lia.
Qed.

Lemma to_int_chars (bytes : list ascii) :
  bytes <> [] ->
  to_int (map Py.char bytes)
  = (map Py.char (rev bytes), inr (little_endian_sum bytes)).
Proof.
  intros Hne. unfold to_int. rewrite <- map_rev, join_chars. f_equal.
  assert (Hrev : rev bytes <> []).
  { intros E. apply Hne. rewrite <- (rev_involutive bytes), E. reflexivity. }
  destruct (rev bytes) as [|c r] eqn:E; [contradiction|].
  unfold Py.int16. cbn [string_of_list_ascii Py.encode_hex].
  change (String ?a (String ?b (Py.encode_hex ?t)))
    with (Py.encode_hex (String c t)).
  rewrite parse_digits_encode_hex.
  cbn [list_ascii_of_string]. rewrite list_ascii_of_string_of_list_ascii.
  rewrite <- E, big_endian_rev. reflexivity.
Qed.

(** C6 (as amended): for every non-empty byte sequence, the
    reverse-then-parse-as-hexadecimal decoding of [to_int] returns the
    little-endian accumulation [sum(byte[i] << (8*i))] of the bytes as
    received. *)
Theorem to_int_little_endian (bytes : list ascii) :
  bytes <> [] ->
  snd (to_int (map Py.char bytes)) = inr (little_endian_sum bytes).
Proof.
  intros Hne. rewrite (to_int_chars bytes Hne). reflexivity.
Qed.

(** The bytes [01 00 00 00] decode to 1. *)
Lemma to_int_little_endian_witness :
  snd (to_int (map Py.char ["001"; "000"; "000"; "000"]%char)) = inr 1.
Proof.
  exact (to_int_little_endian ["001"; "000"; "000"; "000"]%char
           ltac:(discriminate)).
Defined.

(** The bytes [00 01] decode to 256. *)
Example to_int_0001 :
  snd (to_int (map Py.char ["000"; "001"]%char)) = inr 256.
Proof. reflexivity. Qed.

(** C6 as stated fails on the empty sequence: the accumulation is 0 there,
    while [to_int([])] raises [ValueError] ([int('', 16)]). *)
Lemma to_int_empty_raises :
  snd (to_int (map Py.char [])) = inl ValueError /\
  snd (to_int (map Py.char [])) <> inr (little_endian_sum []).
Proof. split; [reflexivity | discriminate]. Qed.

(** C10: [to_int] reverses its argument in place: after the call (whether it
    returns or raises) the list object the caller passed holds the same
    elements in reversed order, and no other object is touched. *)
Theorem to_int_reverses_argument (h : store) (r : ref) (l : list string) :
  h r = Some l ->
  fst (call_to_int r h) r = Some (rev l) /\
  (forall r', r' <> r -> fst (call_to_int r h) r' = h r') /\
  fst (to_int l) = rev l.
Proof.
  intros Hl. unfold call_to_int. rewrite Hl. cbn.
  unfold store_set. rewrite Nat.eqb_refl. repeat split.
  intros r' Hr'. apply Nat.eqb_neq in Hr'. rewrite Hr'. reflexivity.
Qed.

Lemma to_int_reverses_argument_witness :
  let h := store_set 0%nat (map Py.char ["001"; "002"; "003"]%char) (fun _ => None) in
  fst (call_to_int 0%nat h) 0%nat = Some (map Py.char ["003"; "002"; "001"]%char).
Proof.
  exact (proj1 (to_int_reverses_argument
                  (store_set 0%nat (map Py.char ["001"; "002"; "003"]%char)
                     (fun _ => None))
                  0%nat (map Py.char ["001"; "002"; "003"]%char) eq_refl)).
Defined.

Example to_int_1000 :
  to_int (map Py.char ["001"; "000"; "000"; "000"]%char)
  = (map Py.char ["000"; "000"; "000"; "001"]%char, inr 1).
Proof. reflexivity. Qed.

(** ** The response validator: [_check_return] *)

Lemma contains_NACK_cons (c : ascii) (s : string) :
  Py.contains NACK (String c s) = Ascii.eqb nack_byte c || Py.contains NACK s.
Proof.
  cbn [Py.contains NACK Py.char String.prefix]. fold nack_byte.
  destruct (ascii_dec nack_byte c) as [E|E].
  - subst c. rewrite Ascii.eqb_refl. destruct s; reflexivity.
  - apply Ascii.eqb_neq in E. rewrite E. reflexivity.
Qed.

Lemma contains_NACK_occurs (s : string) :
  Py.contains NACK s = true <-> occurs nack_byte s.
Proof.
  unfold occurs. induction s as [|c s IH].
  - cbn. split; [discriminate | tauto].
  - rewrite contains_NACK_cons, orb_true_iff, IH, Ascii.eqb_eq.
    cbn [list_ascii_of_string In]. split; intros [H|H]; auto.
Qed.

Lemma contains_NACK_free (s : string) :
  ~ occurs nack_byte s -> Py.contains NACK s = false.
Proof.
  intros H. destruct (Py.contains NACK s) eqn:E; [|reflexivity].
  apply contains_NACK_occurs in E. contradiction.
Qed.

Lemma check_return_empty (description : string) (w : World) :
  _check_return EmptyString description w
  = (inl (TimeoutException description), w).
Proof. reflexivity. Qed.

Lemma check_return_nack (ret_ description : string) (w : World) :
  occurs nack_byte ret_ ->
  _check_return ret_ description w = (inl (NACKException description), w).
Proof.
  intros H. unfold _check_return.
  destruct ret_ as [|c r]; [destruct H|]. cbn [String.eqb].
  apply contains_NACK_occurs in H. rewrite H. reflexivity.
Qed.

Lemma check_return_pass (ret_ description : string) (w : World) :
  ret_ <> EmptyString -> ~ occurs nack_byte ret_ ->
  _check_return ret_ description w = (inr tt, w).
Proof.
  intros Hne H. unfold _check_return.
  destruct ret_ as [|c r]; [contradiction|]. cbn [String.eqb].
  rewrite (contains_NACK_free _ H). reflexivity.
Qed.

(** The validator never changes the state, and a [TimeoutException] comes
    from the empty response only. *)
Lemma check_return_state (ret_ description : string) (w : World) :
  snd (_check_return ret_ description w) = w.
Proof.
  unfold _check_return. destruct (String.eqb _ _); [reflexivity|].
  destruct (Py.contains _ _); reflexivity.
Qed.

Lemma check_return_timeout (ret_ description d : string) (w : World) :
  fst (_check_return ret_ description w) = inl (TimeoutException d) ->
  ret_ = EmptyString.
Proof.
  unfold _check_return. destruct ret_ as [|c r]; [reflexivity|].
  cbn [String.eqb]. destruct (Py.contains _ _); discriminate.
Qed.

(** ** One exchange: write a command, read, validate *)

Lemma chr_eeprom (address : Z) :
  0 <= address < 100 -> Py.chr (128 + address) = inr (eeprom_command address).
Proof.
  intros H. unfold Py.chr.
  replace ((0 <=? 128 + address) && (128 + address <? 256)) with true;
    [reflexivity|].
  symmetry. apply andb_true_iff. split; [apply Z.leb_le | apply Z.ltb_lt]; lia.
Qed.

Lemma write_then_read {B : Type} (data : string) (size : nat)
  (k : string -> M B) (w : World) :
  (phot_write data ;; r <- phot_read size ;; k r) w
  = k (next_response size w) (exchanged data w).
Proof.
  unfold bind, phot_read, phot_write, update_self, next_response, exchanged,
    Serial_read, Serial_write.
  destruct w as [o out]; destruct o as [p m v z f g k0];
    destruct p as [wr inc]; cbn.
  destruct inc; reflexivity.
Qed.

Lemma send_command_eq (command description : string) (w : World) :
  _send_command command description w
  = _check_return (next_response 1 w) description (exchanged command w).
Proof. unfold _send_command. apply write_then_read. Qed.

Lemma read_eeprom_single_eq (address : Z) (w : World) :
  0 <= address < 100 ->
  _read_eeprom_single address w
  = match _check_return (next_response 2 w)
            ("reading eeprom at address " ++ Py.str_of_int address)
            (exchanged (eeprom_command address) w) with
    | (inr _, w') => (Py.getitem (next_response 2 w) 0, w')
    | (inl e, w') => (inl e, w')
    end.
Proof.
  intros H. unfold _read_eeprom_single, bind at 1, lift at 1.
  rewrite (chr_eeprom _ H). rewrite write_then_read. reflexivity.
Qed.

Lemma read_adc_eq (w : World) :
  _read_adc w
  = match _check_return (next_response 4 w) "reading adc value"
            (exchanged "L" w) with
    | (inr _, w') =>
        (let ret_ := Py.drop_last (next_response 4 w) in
         b0 <- lift (Py.getitem ret_ 0) ;;
         b1 <- lift (Py.getitem ret_ 1) ;;
         b2 <- lift (Py.getitem ret_ 2) ;;
         adc <- to_int_value [b0; b1; b2] ;;
         print ("adc_mine " ++ Py.str_of_int adc) ;;
         o0 <- lift (Py.ord b0) ;;
         o1 <- lift (Py.ord b1) ;;
         o2 <- lift (Py.ord b2) ;;
         print (Py.str_of_int (o0 + Z.shiftl o1 8 + Z.shiftl o2 16)) ;;
         zero <- getattr "Z_count" Z_count ;;
         ret (adc - zero - 524288)) w'
    | (inl e, w') => (inl e, w')
    end.
Proof. unfold _read_adc. rewrite write_then_read. reflexivity. Qed.

(** C7: the validator raises [TimeoutException] exactly on the empty
    response, raises [NACKException] whenever the NACK byte occurs anywhere
    in the response, and otherwise passes, leaving response and state as
    they are; and each of the three exchanges ([_send_command],
    [_read_eeprom_single], [_read_adc]) raises what the validator raises on
    the response it has just read. *)
Theorem check_return_validates (ret_ description : string) (w : World) :
  (fst (_check_return ret_ description w) = inl (TimeoutException description)
   <-> ret_ = EmptyString) /\
  (occurs nack_byte ret_ ->
   fst (_check_return ret_ description w) = inl (NACKException description)) /\
  (ret_ <> EmptyString -> ~ occurs nack_byte ret_ ->
   fst (_check_return ret_ description w) = inr tt) /\
  snd (_check_return ret_ description w) = w /\
  (forall command e,
     fst (_check_return (next_response 1 w) description (exchanged command w))
     = inl e ->
     fst (_send_command command description w) = inl e) /\
  (forall address e,
     0 <= address < 100 ->
     fst (_check_return (next_response 2 w)
            ("reading eeprom at address " ++ Py.str_of_int address)
            (exchanged (eeprom_command address) w)) = inl e ->
     fst (_read_eeprom_single address w) = inl e) /\
  (forall e,
     fst (_check_return (next_response 4 w) "reading adc value"
            (exchanged "L" w)) = inl e ->
     fst (_read_adc w) = inl e).
Proof.
  repeat split.
  - apply check_return_timeout.
  - intros ->. reflexivity.
  - intros H. rewrite check_return_nack by assumption. reflexivity.
  - intros Hne H. rewrite check_return_pass by assumption. reflexivity.
  - apply check_return_state.
  - intros command e H. rewrite send_command_eq. exact H.
  - intros address e Ha H. rewrite read_eeprom_single_eq by assumption.
    destruct (_check_return _ _ _) as [[e'|[]] w']; cbn in *; congruence.
  - intros e H. rewrite read_adc_eq.
    destruct (_check_return _ _ _) as [[e'|[]] w']; cbn in *; congruence.
Qed.

(** A NACK in second position of an eeprom response is reported. *)
Lemma check_return_validates_witness :
  fst (_check_return (Py.char "A" ++ NACK) "reading eeprom at address 16"
         (new_instance {| written := ""; incoming := [] |}))
  = inl (NACKException "reading eeprom at address 16").
Proof.
  refine (proj1 (proj2 (check_return_validates _ _ _)) _).
  right. left. reflexivity.
Defined.

(** ** The eeprom reader *)

Lemma next_response_cons (size : nat) (w : World) (r : string)
  (rest : list string) :
  incoming (phot (self w)) = r :: rest ->
  next_response size w = String.substring 0 size r.
Proof.
  intros H. unfold next_response, Serial_read. rewrite H. reflexivity.
Qed.

Lemma ord_eeprom_command (address : Z) :
  0 <= address < 100 -> Py.ord (eeprom_command address) = inr (128 + address).
Proof.
  intros H. unfold eeprom_command, Py.ord, Py.char, Py.byte_value.
  rewrite N_ascii_embedding by lia. f_equal. lia.
Qed.

(** C5 (as amended): for every address in 0..99 and every response that
    starts with [byte, ACK] where [byte] is not 0x15, [_read_eeprom_single]
    writes the single command byte [0x80 + address], consumes one response
    (read with size 2) and returns [byte], the second byte being dropped. *)
Theorem read_eeprom_single_ack (w : World) (address : Z) (c : ascii)
  (tail : string) (rest : list string) :
  0 <= address < 100 ->
  c <> nack_byte ->
  incoming (phot (self w)) = String c (String ack_byte tail) :: rest ->
  _read_eeprom_single address w
  = (inr (Py.char c), exchanged (eeprom_command address) w) /\
  written (phot (self (exchanged (eeprom_command address) w)))
  = (written (phot (self w)) ++ eeprom_command address)%string /\
  Py.ord (eeprom_command address) = inr (128 + address) /\
  incoming (phot (self (exchanged (eeprom_command address) w))) = rest.
Proof.
  intros Ha Hc Hin. repeat split.
  - rewrite read_eeprom_single_eq by assumption.
    rewrite (next_response_cons 2 w _ rest Hin). cbn [String.substring].
    replace (String.substring 0 0 tail) with EmptyString
      by (destruct tail; reflexivity).
    rewrite check_return_pass; [reflexivity | discriminate |].
    unfold occurs. cbn [list_ascii_of_string In].
    intros [H|[H|[]]]; [congruence | discriminate H].
  - apply ord_eeprom_command; assumption.
  - cbn. rewrite Hin. reflexivity.
Qed.

(** Address 16 answered by [0x40, ACK]: command 0x90 is written and 0x40
    returned. *)
Lemma read_eeprom_single_ack_witness :
  _read_eeprom_single 16
    (new_instance {| written := ""; incoming := [String "@" ACK] |})
  = (inr "@"%string,
     new_instance {| written := Py.char (ascii_of_N 144); incoming := [] |}).
Proof.
  refine (proj1 (read_eeprom_single_ack
                   (new_instance {| written := ""; incoming := [String "@" ACK] |})
                   16 "@"%char EmptyString [] _ _ _)).
  - lia.
  - discriminate.
  - reflexivity.
Defined.

(** C5 as stated fails when the data byte is 0x15: the response
    [0x15, ACK] to the read of address 0 raises [NACKException] instead of
    returning the first byte. *)
Lemma read_eeprom_single_nack_data :
  fst (_read_eeprom_single 0
         (new_instance
            {| written := ""; incoming := [String nack_byte ACK] |}))
  = inl (NACKException "reading eeprom at address 0").
Proof. reflexivity. Qed.

(** ** Short and empty responses *)

Lemma nto_ret {A : Type} (a : A) : never_times_out (ret a).
Proof. intros w d. discriminate. Qed.

Lemma nto_print (line : string) : never_times_out (print line).
Proof. intros w d. discriminate. Qed.

Lemma nto_getattr {A : Type} (name : string) (field : OptiCal -> option A) :
  never_times_out (getattr name field).
Proof.
  intros w d. unfold getattr. destruct (field (self w)); discriminate.
Qed.

Lemma nto_lift {A : Type} (r : result A) :
  (forall d, r <> inl (TimeoutException d)) -> never_times_out (lift r).
Proof. intros H w d. apply H. Qed.

Lemma nto_bind {A B : Type} (c : M A) (k : A -> M B) :
  never_times_out c -> (forall a, never_times_out (k a)) ->
  never_times_out (bind c k).
Proof.
  intros Hc Hk w d. unfold bind. specialize (Hc w d).
  destruct (c w) as [[e|a] w1]; cbn [fst] in *; [| apply Hk].
  intros E. apply Hc. injection E as ->. reflexivity.
Qed.

Lemma getitem_no_timeout (s : string) (i : nat) (d : string) :
  Py.getitem s i <> inl (TimeoutException d).
Proof. unfold Py.getitem. destruct (String.get i s); discriminate. Qed.

Lemma ord_no_timeout (s d : string) : Py.ord s <> inl (TimeoutException d).
Proof. destruct s as [|c [|c' s]]; discriminate. Qed.

Lemma to_int_no_timeout (l : list string) (d : string) :
  snd (to_int l) <> inl (TimeoutException d).
Proof.
  unfold to_int, Py.int16. cbn [snd].
  destruct (Py.encode_hex _); [discriminate|].
  destruct (Py.parse_digits _ _); discriminate.
Qed.

Lemma read_adc_decode_no_timeout (r d : string) (w : World) :
  fst ((let ret_ := Py.drop_last r in
        b0 <- lift (Py.getitem ret_ 0) ;;
        b1 <- lift (Py.getitem ret_ 1) ;;
        b2 <- lift (Py.getitem ret_ 2) ;;
        adc <- to_int_value [b0; b1; b2] ;;
        print ("adc_mine " ++ Py.str_of_int adc) ;;
        o0 <- lift (Py.ord b0) ;;
        o1 <- lift (Py.ord b1) ;;
        o2 <- lift (Py.ord b2) ;;
        print (Py.str_of_int (o0 + Z.shiftl o1 8 + Z.shiftl o2 16)) ;;
        zero <- getattr "Z_count" Z_count ;;
        ret (adc - zero - 524288)) w)
  <> inl (TimeoutException d).
Proof.
  cbv zeta. revert w d. unfold to_int_value.
  repeat first
    [ apply nto_ret | apply nto_print | apply nto_getattr
    | apply nto_lift; intro;
      first [apply getitem_no_timeout | apply ord_no_timeout
            | apply to_int_no_timeout]
    | apply nto_bind; [| intro] ].
Qed.

(** C3 (as amended): only the empty response is a timeout.  Each exchange
    raises [TimeoutException] when nothing arrives, and never raises it
    when something does, however short; in particular a single byte other
    than 0x15 received for the 2-byte eeprom read is returned as the byte
    read. *)
Theorem timeout_only_when_empty (w : World) (address : Z) (description : string) :
  0 <= address < 100 ->
  (next_response 1 w = EmptyString ->
   forall command, fst (_send_command command description w)
                   = inl (TimeoutException description)) /\
  (next_response 2 w = EmptyString ->
   fst (_read_eeprom_single address w)
   = inl (TimeoutException
            ("reading eeprom at address " ++ Py.str_of_int address))) /\
  (next_response 4 w = EmptyString ->
   fst (_read_adc w) = inl (TimeoutException "reading adc value")) /\
  (next_response 1 w <> EmptyString ->
   forall command d, fst (_send_command command description w)
                     <> inl (TimeoutException d)) /\
  (next_response 2 w <> EmptyString ->
   forall d, fst (_read_eeprom_single address w) <> inl (TimeoutException d)) /\
  (next_response 4 w <> EmptyString ->
   forall d, fst (_read_adc w) <> inl (TimeoutException d)) /\
  (forall c, next_response 2 w = Py.char c -> c <> nack_byte ->
   fst (_read_eeprom_single address w) = inr (Py.char c)).
Proof.
  intros Ha. repeat split.
  - intros E command. rewrite send_command_eq, E. reflexivity.
  - intros E. rewrite read_eeprom_single_eq, E by assumption. reflexivity.
  - intros E. rewrite read_adc_eq, E. reflexivity.
  - intros Hne command d H. rewrite send_command_eq in H.
    apply check_return_timeout in H. contradiction.
  - intros Hne d H. rewrite read_eeprom_single_eq in H by assumption.
    destruct (_check_return _ _ _) as [[e|[]] w'] eqn:E; cbn in H.
    + injection H as ->. apply Hne. eapply check_return_timeout.
      rewrite E. reflexivity.
    + unfold Py.getitem in H. destruct (String.get _ _); discriminate.
  - intros Hne d H. rewrite read_adc_eq in H.
    destruct (_check_return _ _ _) as [[e|[]] w'] eqn:E.
    + injection H as ->. apply Hne. eapply check_return_timeout.
      rewrite E. reflexivity.
    + exact (read_adc_decode_no_timeout _ _ _ H).
  - intros c E Hc. rewrite read_eeprom_single_eq, E by assumption.
    rewrite check_return_pass; [reflexivity | discriminate |].
    unfold occurs. cbn [list_ascii_of_string Py.char In].
    intros [H|[]]. congruence.
Qed.

(** The single byte 0x05 answering the read of address 16 is returned. *)
Lemma timeout_only_when_empty_witness :
  fst (_read_eeprom_single 16
         (new_instance {| written := ""; incoming := [Py.char (ascii_of_N 5)] |}))
  = inr (Py.char (ascii_of_N 5)).
Proof.
  refine (proj2 (proj2 (proj2 (proj2 (proj2 (proj2
           (timeout_only_when_empty
              (new_instance
                 {| written := ""; incoming := [Py.char (ascii_of_N 5)] |})
              16 "calibrate" _)))))) (ascii_of_N 5) _ _).
  - lia.
  - reflexivity.
  - discriminate.
Defined.

(** C3 as stated fails: a 1-byte response to the 2-byte eeprom read is not
    a timeout, the byte is returned. *)
Lemma short_eeprom_response_returned :
  fst (_read_eeprom_single 16
         (new_instance {| written := ""; incoming := [Py.char (ascii_of_N 5)] |}))
  = inr (Py.char (ascii_of_N 5)) /\
  forall d,
    fst (_read_eeprom_single 16
           (new_instance
              {| written := ""; incoming := [Py.char (ascii_of_N 5)] |}))
    <> inl (TimeoutException d).
Proof. split; [reflexivity | discriminate]. Qed.

(** ** The ADC reader *)

(** C4: for every response whose first four bytes contain no NACK,
    [_read_adc] writes the command byte ['L'] (0x4C), reads with size 4,
    drops the fourth byte, decodes the first three least significant byte
    first and returns that value minus [Z_count] minus 524288. *)
Theorem read_adc_value (w : World) (b0 b1 b2 b3 : ascii) (tail : string)
  (rest : list string) (zero : Z) :
  ~ In nack_byte [b0; b1; b2; b3] ->
  Z_count (self w) = Some zero ->
  incoming (phot (self w))
  = String b0 (String b1 (String b2 (String b3 tail))) :: rest ->
  fst (_read_adc w) = inr (little_endian_sum [b0; b1; b2] - zero - 524288) /\
  self (snd (_read_adc w)) = self (exchanged "L" w) /\
  written (phot (self (snd (_read_adc w))))
  = (written (phot (self w)) ++ "L")%string /\
  Py.ord "L" = inr 76 /\
  incoming (phot (self (snd (_read_adc w)))) = rest.
Proof.
  intros Hn Hz Hin.
  assert (E : _read_adc w
              = (inr (little_endian_sum [b0; b1; b2] - zero - 524288),
                 {| self := self (exchanged "L" w);
                    stdout :=
                      stdout w ++
                        [("adc_mine "
                          ++ Py.str_of_int (little_endian_sum [b0; b1; b2]))%string;
                         Py.str_of_int
                           (Py.byte_value b0 + Z.shiftl (Py.byte_value b1) 8
                            + Z.shiftl (Py.byte_value b2) 16)] |})).
  { rewrite read_adc_eq, (next_response_cons 4 w _ rest Hin).
    cbn [String.substring].
    replace (String.substring 0 0 tail) with EmptyString
      by (destruct tail; reflexivity).
    rewrite check_return_pass; [| discriminate | exact Hn].
    cbv zeta. unfold Py.drop_last. cbn [String.length Nat.sub String.substring].
    unfold to_int_value.
    unfold bind at 1, lift at 1. cbn [Py.getitem String.get].
    unfold bind at 1, lift at 1. cbn [Py.getitem String.get].
    unfold bind at 1, lift at 1. cbn [Py.getitem String.get].
    change [Py.char b0; Py.char b1; Py.char b2]
      with (map Py.char [b0; b1; b2]).
    rewrite to_int_chars by discriminate.
    unfold bind, lift, print, getattr, ret. cbn [snd Py.ord Py.char self stdout].
    change (Z_count (self (exchanged "L" w))) with (Z_count (self w)).
    rewrite Hz. rewrite <- app_assoc. reflexivity. }
  rewrite E. cbn [fst snd self]. repeat split.
  cbn. rewrite Hin. reflexivity.
Qed.

(** The response [00 00 08 ACK] with [Z_count = 0] gives 0. *)
Lemma read_adc_value_witness :
  fst (_read_adc
         {| self :=
              {| phot := {| written := "";
                            incoming := [String "000" (String "000"
                                           (String "008" ACK))] |};
                 mode := Some lit_current; V_ref := Some 1000000;
                 Z_count := Some 0; R_feed := Some 1; R_gain := Some 1;
                 K_cal := Some 1000 |};
            stdout := [] |})
  = inr 0.
Proof.
  refine (proj1 (read_adc_value _ "000" "000" "008" ack_byte EmptyString []
                   0 _ _ _)).
  - cbn. intros [H|[H|[H|[H|[]]]]]; discriminate H.
  - reflexivity.
  - reflexivity.
Defined.

(** ** Framing: what the methods leave alone *)

Create HintDb keeps discriminated.

Lemma keeps_ret {A : Type} (a : A) : keeps_attributes (ret a).
Proof. intros w. reflexivity. Qed.

Lemma keeps_raise {A : Type} (e : exn) : keeps_attributes (@raise A e).
Proof. intros w. reflexivity. Qed.

Lemma keeps_lift {A : Type} (r : result A) : keeps_attributes (lift r).
Proof. intros w. reflexivity. Qed.

Lemma keeps_bind {A B : Type} (c : M A) (k : A -> M B) :
  keeps_attributes c -> (forall a, keeps_attributes (k a)) ->
  keeps_attributes (bind c k).
Proof.
  intros Hc Hk w. unfold bind. specialize (Hc w).
  destruct (c w) as [[e|a] w1]; cbn [snd] in *; [exact Hc|].
  rewrite Hk. exact Hc.
Qed.

Lemma keeps_getattr {A : Type} (name : string) (field : OptiCal -> option A) :
  keeps_attributes (getattr name field).
Proof. intros w. unfold getattr. destruct (field (self w)); reflexivity. Qed.

Lemma keeps_phot_write (data : string) : keeps_attributes (phot_write data).
Proof. intros w. reflexivity. Qed.

Lemma keeps_phot_read (size : nat) : keeps_attributes (phot_read size).
Proof.
  intros w. unfold phot_read. destruct (Serial_read _ _). reflexivity.
Qed.

Lemma keeps_print (line : string) : keeps_attributes (print line).
Proof. intros w. reflexivity. Qed.

Lemma keeps_check_return (ret_ description : string) :
  keeps_attributes (_check_return ret_ description).
Proof. intros w. rewrite check_return_state. reflexivity. Qed.

#[local] Hint Resolve keeps_ret keeps_raise keeps_lift keeps_getattr
  keeps_phot_write keeps_phot_read keeps_print keeps_check_return : keeps.

(** Splits a method body along its binds and closes the leaves. *)
Ltac keeps :=
  repeat first
    [ solve [auto with keeps]
    | apply keeps_bind; [| intro]
    | match goal with
      | |- keeps_attributes (if ?b then _ else _) => destruct b
      | |- keeps_attributes (match ?x with _ => _ end) => destruct x
      end ].

Lemma keeps_send_command (command description : string) :
  keeps_attributes (_send_command command description).
Proof. unfold _send_command. keeps. Qed.

Lemma keeps_read_eeprom_single (address : Z) :
  keeps_attributes (_read_eeprom_single address).
Proof. unfold _read_eeprom_single. keeps. Qed.

#[local] Hint Resolve keeps_send_command keeps_read_eeprom_single : keeps.

Lemma keeps_read_eeprom_loop (addresses : list Z) (acc : list string) :
  keeps_attributes (_read_eeprom_loop addresses acc).
Proof.
  revert acc. induction addresses as [|a l IH]; intros acc; cbn; keeps.
Qed.

Lemma keeps_read_eeprom (start stop : Z) :
  keeps_attributes (_read_eeprom start stop).
Proof. apply keeps_read_eeprom_loop. Qed.

Lemma keeps_read_adc : keeps_attributes _read_adc.
Proof. unfold _read_adc, to_int_value. keeps. Qed.

#[local] Hint Resolve keeps_read_eeprom keeps_read_adc : keeps.

Lemma keeps_get_measurement : keeps_attributes _get_measurement.
Proof. unfold _get_measurement. keeps. Qed.

#[local] Hint Resolve keeps_get_measurement : keeps.

Lemma keeps_get_luminance : keeps_attributes get_luminance.
Proof. unfold get_luminance. keeps. Qed.

Lemma keeps_get_voltage : keeps_attributes get_voltage.
Proof. unfold get_voltage. keeps. Qed.

(** ** The successful path of the constructor *)

Lemma bind_ok {A B : Type} (c : M A) (k : A -> M B) (w w' : World) (b : B) :
  bind c k w = (inr b, w') ->
  exists a w1, c w = (inr a, w1) /\ k a w1 = (inr b, w').
Proof.
  unfold bind. destruct (c w) as [[e|a] w1]; [discriminate|].
  intros H. exists a, w1. split; [reflexivity | exact H].
Qed.

Lemma str_append_assoc (a b c : string) :
  ((a ++ b) ++ c = a ++ (b ++ c))%string.
Proof. induction a as [|x a IH]; cbn; [reflexivity | now rewrite IH]. Qed.

Lemma str_append_empty (a : string) : (a ++ "" = a)%string.
Proof. induction a as [|x a IH]; cbn; [reflexivity | now rewrite IH]. Qed.

Lemma send_command_ok (command description : string) (w w' : World) :
  _send_command command description w = (inr tt, w') ->
  w' = exchanged command w.
Proof.
  rewrite send_command_eq. intros H.
  rewrite <- (check_return_state (next_response 1 w) description
                (exchanged command w)), H.
  reflexivity.
Qed.

Lemma read_eeprom_single_ok (address : Z) (w w' : World) (b : string) :
  0 <= address < 100 ->
  _read_eeprom_single address w = (inr b, w') ->
  w' = exchanged (eeprom_command address) w /\
  exists r rest,
    incoming (phot (self w)) = r :: rest /\ b = Py.char (head_byte r).
Proof.
  intros Ha. rewrite read_eeprom_single_eq by assumption.
  pose proof (check_return_state (next_response 2 w)
                ("reading eeprom at address " ++ Py.str_of_int address)
                (exchanged (eeprom_command address) w)) as Hs.
  destruct (_check_return _ _ _) as [[e|[]] w1]; [discriminate|].
  cbn [snd] in Hs. subst w1. intros H. injection H as Hb <-.
  split; [reflexivity|].
  unfold next_response, Serial_read in Hb.
  destruct (incoming (phot (self w))) as [|r rest]; [discriminate Hb|].
  exists r, rest. split; [reflexivity|].
  cbn [fst] in Hb. destruct r as [|c r]; [discriminate Hb|].
  cbn in Hb. injection Hb as <-. reflexivity.
Qed.

Lemma read_eeprom_loop_ok (addresses : list Z) :
  forall (acc : list string) (w w' : World) (l : list string),
    Forall (fun a => 0 <= a < 100) addresses ->
    _read_eeprom_loop addresses acc w = (inr l, w') ->
    w' = exchanged_all (map eeprom_command addresses) w /\
    l = acc ++ map (fun r => Py.char (head_byte r))
                 (firstn (List.length addresses) (incoming (phot (self w)))) /\
    (List.length addresses <= List.length (incoming (phot (self w))))%nat.
Proof.
  induction addresses as [|a addresses IH]; intros acc w w' l Hv H.
  - injection H as <- <-. cbn. rewrite app_nil_r. repeat split. lia.
  - inversion Hv as [|? ? Ha Hv']; subst.
    cbn [_read_eeprom_loop] in H.
    apply bind_ok in H as (b & w1 & Hb & H).
    apply read_eeprom_single_ok in Hb as (-> & r & rest & Hin & ->);
      [|assumption].
    apply IH in H as (-> & -> & Hlen); [|assumption].
    cbn [exchanged self phot with_phot incoming] in *.
    rewrite Hin in *. cbn [tl List.length firstn map] in *.
    rewrite <- app_assoc. repeat split. lia.
Qed.

Lemma exchanged_all_attributes (commands : list string) (w : World) :
  attributes (self (exchanged_all commands w)) = attributes (self w).
Proof.
  revert w. induction commands as [|c l IH]; intros w; [reflexivity|].
  cbn [exchanged_all fold_left]. fold (exchanged_all l (exchanged c w)).
  rewrite IH. reflexivity.
Qed.

Lemma exchanged_all_fields (commands : list string) (w : World) :
  mode (self (exchanged_all commands w)) = mode (self w) /\
  V_ref (self (exchanged_all commands w)) = V_ref (self w) /\
  Z_count (self (exchanged_all commands w)) = Z_count (self w) /\
  R_feed (self (exchanged_all commands w)) = R_feed (self w) /\
  R_gain (self (exchanged_all commands w)) = R_gain (self w) /\
  K_cal (self (exchanged_all commands w)) = K_cal (self w).
Proof.
  pose proof (exchanged_all_attributes commands w) as H.
  unfold attributes in H. injection H as -> -> -> -> -> ->.
  repeat split.
Qed.

Lemma exchanged_all_written (commands : list string) (w : World) :
  written (phot (self (exchanged_all commands w)))
  = (written (phot (self w)) ++ Py.join commands)%string.
Proof.
  revert w. induction commands as [|c l IH]; intros w.
  - cbn. now rewrite str_append_empty.
  - cbn [exchanged_all fold_left]. fold (exchanged_all l (exchanged c w)).
    rewrite IH. cbn [exchanged self phot with_phot written].
    rewrite str_append_assoc. f_equal.
    unfold Py.join. cbn [String.concat]. destruct l; [|reflexivity].
    cbn. now rewrite str_append_empty.
Qed.

Lemma exchanged_all_incoming (commands : list string) (w : World) :
  incoming (phot (self (exchanged_all commands w)))
  = skipn (List.length commands) (incoming (phot (self w))).
Proof.
  revert w. induction commands as [|c l IH]; intros w; [reflexivity|].
  cbn [exchanged_all fold_left]. fold (exchanged_all l (exchanged c w)).
  rewrite IH. cbn [exchanged self phot with_phot incoming List.length].
  destruct (incoming (phot (self w))); [now rewrite skipn_nil | reflexivity].
Qed.

Lemma exchanged_all_stdout (commands : list string) (w : World) :
  stdout (exchanged_all commands w) = stdout w.
Proof.
  revert w. induction commands as [|c l IH]; intros w; [reflexivity|].
  cbn [exchanged_all fold_left]. fold (exchanged_all l (exchanged c w)).
  rewrite IH. reflexivity.
Qed.

Lemma read_constant_step {B : Type} (start stop : Z) (k : Z -> M B)
  (w w' : World) (x : B) :
  Forall (fun a => 0 <= a < 100) (Py.range start (stop + 1)) ->
  Py.range start (stop + 1) <> [] ->
  (l <- _read_eeprom start stop ;; v <- to_int_value l ;; k v) w
  = (inr x, w') ->
  k (decoded 0 (List.length (Py.range start (stop + 1)))
       (incoming (phot (self w))))
    (exchanged_all (map eeprom_command (Py.range start (stop + 1))) w)
  = (inr x, w') /\
  (List.length (Py.range start (stop + 1))
   <= List.length (incoming (phot (self w))))%nat.
Proof.
  intros Hv Hne H.
  apply bind_ok in H as (l & w1 & Hl & H).
  apply read_eeprom_loop_ok in Hl as (-> & -> & Hlen); [|assumption].
  split; [|exact Hlen].
  apply bind_ok in H as (v & w2 & Hto & H).
  unfold to_int_value, lift in Hto. injection Hto as Hto <-.
  cbn [app] in Hto. rewrite <- (map_map head_byte Py.char) in Hto.
  match type of Hto with
  | Py.int16 (Py.encode_hex (Py.join (rev ?l))) = _ =>
      change (snd (to_int l) = inr v) in Hto
  end.
  rewrite to_int_chars in Hto.
  - injection Hto as <-. exact H.
  - intros E. apply (f_equal (@List.length ascii)) in E.
    rewrite length_map, length_firstn in E. cbn [List.length] in E.
    destruct (Py.range start (stop + 1)); [contradiction|].
    cbn [List.length] in *. lia.
Qed.

Lemma decoded_skipn (skip n count : nat) (responses : list string) :
  decoded skip count (skipn n responses) = decoded (n + skip) count responses.
Proof.
  unfold decoded. rewrite skipn_skipn. rewrite (Nat.add_comm skip n).
  reflexivity.
Qed.

(** Unfolds one assignment [self.X = v] at the head of a hypothesis. *)
Ltac assign_in H :=
  unfold bind at 1, update_self at 1 in H; cbv beta iota in H.

Lemma read_ref_defs_ok (w w' : World) :
  _read_ref_defs w = (inr tt, w') ->
  written (phot (self w'))
  = (written (phot (self w))
     ++ eeprom_commands 16 19 ++ eeprom_commands 32 35
     ++ eeprom_commands 48 51 ++ eeprom_commands 64 67
     ++ eeprom_commands 96 99)%string /\
  incoming (phot (self w')) = skipn 20 (incoming (phot (self w))) /\
  mode (self w') = mode (self w) /\
  V_ref (self w') = Some (decoded 0 4 (incoming (phot (self w)))) /\
  Z_count (self w') = Some (decoded 4 4 (incoming (phot (self w)))) /\
  R_feed (self w') = Some (decoded 8 4 (incoming (phot (self w)))) /\
  R_gain (self w') = Some (decoded 12 4 (incoming (phot (self w)))) /\
  K_cal (self w') = Some (decoded 16 4 (incoming (phot (self w)))) /\
  stdout w' = stdout w.
Proof.
  unfold _read_ref_defs. intros H.
  assert (Hrange : forall start stop,
             In (start, stop) [(16, 19); (32, 35); (48, 51); (64, 67); (96, 99)] ->
             Forall (fun a => 0 <= a < 100) (Py.range start (stop + 1)) /\
             Py.range start (stop + 1) <> [] /\
             List.length (Py.range start (stop + 1)) = 4%nat).
  { intros start stop Hin. cbn [In] in Hin.
    repeat (destruct Hin as [Hin|Hin];
            [injection Hin as <- <-;
             repeat split; [repeat constructor; lia | discriminate]|]).
    destruct Hin. }
  apply (read_constant_step 16 19) in H as [H _];
    try (apply Hrange; cbn; tauto).
  assign_in H.
  apply (read_constant_step 32 35) in H as [H _];
    try (apply Hrange; cbn; tauto).
  assign_in H.
  apply (read_constant_step 48 51) in H as [H _];
    try (apply Hrange; cbn; tauto).
  assign_in H.
  apply (read_constant_step 64 67) in H as [H _];
    try (apply Hrange; cbn; tauto).
  assign_in H.
  apply (read_constant_step 96 99) in H as [H _];
    try (apply Hrange; cbn; tauto).
  unfold update_self in H. apply (f_equal snd) in H. cbn [snd] in H.
  subst w'.
  repeat match goal with
         | |- context [List.length (Py.range ?a ?b)] =>
             change (List.length (Py.range a b)) with 4%nat
         end.
  unfold eeprom_commands.
  repeat (rewrite ?exchanged_all_written, ?exchanged_all_incoming,
           ?exchanged_all_stdout, ?length_map, ?decoded_skipn, ?skipn_skipn,
           ?(fun c w => proj1 (exchanged_all_fields c w)),
           ?(fun c w => proj1 (proj2 (exchanged_all_fields c w))),
           ?(fun c w => proj1 (proj2 (proj2 (exchanged_all_fields c w)))),
           ?(fun c w =>
               proj1 (proj2 (proj2 (proj2 (exchanged_all_fields c w))))),
           ?(fun c w =>
               proj1 (proj2 (proj2 (proj2 (proj2
                 (exchanged_all_fields c w)))))),
           ?(fun c w =>
               proj2 (proj2 (proj2 (proj2 (proj2
                 (exchanged_all_fields c w))))));
          cbn [self stdout phot mode V_ref Z_count R_feed R_gain K_cal
               with_V_ref with_Z_count with_R_feed with_R_gain with_K_cal
               written incoming]).
  repeat match goal with
         | |- context [List.length (Py.range ?a ?b)] =>
             change (List.length (Py.range a b)) with 4%nat
         end.
  cbn [Nat.add].
  rewrite !str_append_assoc.
  repeat (split; [reflexivity|]). reflexivity.
Qed.

Lemma set_mode_ok (m : pystr) (command description : string) (w w' : World) :
  (update_self (with_mode m) ;; _send_command command description) w
  = (inr tt, w') ->
  w' = exchanged command
         {| self := with_mode m (self w); stdout := stdout w |}.
Proof.
  unfold bind at 1, update_self at 1. cbv beta iota.
  apply send_command_ok.
Qed.

(** What a successful constructor leaves behind. *)
Lemma construct_ok (port : Serial) (mode_ : pystr) (w' : World) :
  construct port mode_ = (inr tt, w') ->
  V_ref (self w') = Some (decoded 1 4 (incoming port)) /\
  Z_count (self w') = Some (decoded 5 4 (incoming port)) /\
  R_feed (self w') = Some (decoded 9 4 (incoming port)) /\
  R_gain (self w') = Some (decoded 13 4 (incoming port)) /\
  K_cal (self w') = Some (decoded 17 4 (incoming port)) /\
  mode (self w')
  = Some (if py_is mode_ lit_current then lit_current else lit_voltage) /\
  (py_is mode_ lit_current = true \/ py_is mode_ lit_voltage = true) /\
  written (phot (self w'))
  = (written port
     ++ init_commands (if py_is mode_ lit_current then "I" else "V"))%string /\
  incoming (phot (self w')) = skipn 22 (incoming port).
Proof.
  unfold construct, __init__. intros H.
  apply bind_ok in H as ([] & w1 & Hc & H).
  apply send_command_ok in Hc. subst w1.
  apply bind_ok in H as ([] & w2 & Hr & H).
  apply read_ref_defs_ok in Hr
    as (Hw & Hi & Hm & Hv & Hz & Hf & Hg & Hk & Ho).
  cbn [exchanged new_instance self phot with_phot written incoming stdout mode]
    in Hw, Hi, Hm, Hv, Hz, Hf, Hg, Hk, Ho.
  change (tl (incoming port)) with (skipn 1 (incoming port)) in *.
  rewrite decoded_skipn in Hv, Hz, Hf, Hg, Hk. rewrite skipn_skipn in Hi.
  cbn [Nat.add] in *.
  assert (Hfin : forall m c d,
             (update_self (with_mode m) ;; _send_command c d) w2 = (inr tt, w') ->
             V_ref (self w') = V_ref (self w2) /\
             Z_count (self w') = Z_count (self w2) /\
             R_feed (self w') = R_feed (self w2) /\
             R_gain (self w') = R_gain (self w2) /\
             K_cal (self w') = K_cal (self w2) /\
             mode (self w') = Some m /\
             written (phot (self w')) = (written (phot (self w2)) ++ c)%string /\
             incoming (phot (self w')) = tl (incoming (phot (self w2)))).
  { intros m c d Hs. apply set_mode_ok in Hs. subst w'. cbn.
    repeat split. }
  destruct (py_is mode_ lit_current) eqn:Ec.
  - apply Hfin in H as (-> & -> & -> & -> & -> & -> & -> & ->).
    rewrite Hw, Hi, Hv, Hz, Hf, Hg, Hk. unfold init_commands.
    rewrite !str_append_assoc.
    change (tl (skipn 21 (incoming port))) with (skipn 1 (skipn 21 (incoming port))).
    rewrite skipn_skipn. repeat (split; [reflexivity|]).
    split; [left; reflexivity | split; reflexivity].
  - destruct (py_is mode_ lit_voltage) eqn:Ev; [|discriminate H].
    apply Hfin in H as (-> & -> & -> & -> & -> & -> & -> & ->).
    rewrite Hw, Hi, Hv, Hz, Hf, Hg, Hk. unfold init_commands.
    rewrite !str_append_assoc.
    change (tl (skipn 21 (incoming port))) with (skipn 1 (skipn 21 (incoming port))).
    rewrite skipn_skipn. repeat (split; [reflexivity|]).
    split; [right; reflexivity | split; reflexivity].
Qed.

Lemma construct_Ready (port : Serial) (mode_ : pystr) (w' : World) :
  construct port mode_ = (inr tt, w') -> Ready w'.
Proof.
  intros H. apply construct_ok in H
    as (Hv & Hz & Hf & Hg & Hk & Hm & _).
  unfold Ready. rewrite Hv, Hz, Hf, Hg, Hk, Hm.
  split; [destruct (py_is _ _); auto | repeat split; discriminate].
Qed.

(** C9: a successful constructor has assigned the five constants and the
    mode; it has written exactly the calibrate command, the eeprom reads of
    V_ref (16..19), Z_count (32..35), R_feed (48..51), R_gain (64..67) and
    K_cal (96..99) in that order, each once, and the mode command; each
    constant is the value carried by its own four responses; and the
    measurement methods never change mode or constants afterwards. *)
Theorem construct_loads_constants (port : Serial) (mode_ : pystr)
  (w' : World) :
  construct port mode_ = (inr tt, w') ->
  V_ref (self w') = Some (decoded 1 4 (incoming port)) /\
  Z_count (self w') = Some (decoded 5 4 (incoming port)) /\
  R_feed (self w') = Some (decoded 9 4 (incoming port)) /\
  R_gain (self w') = Some (decoded 13 4 (incoming port)) /\
  K_cal (self w') = Some (decoded 17 4 (incoming port)) /\
  (mode (self w') = Some lit_current \/ mode (self w') = Some lit_voltage) /\
  written (phot (self w'))
  = (written port
     ++ init_commands (if py_is mode_ lit_current then "I" else "V"))%string /\
  (forall w, attributes (self (snd (get_luminance w))) = attributes (self w)) /\
  (forall w, attributes (self (snd (get_voltage w))) = attributes (self w)) /\
  (forall w, attributes (self (snd (_get_measurement w))) = attributes (self w)) /\
  (forall w, attributes (self (snd (_read_adc w))) = attributes (self w)) /\
  (forall start stop w,
     attributes (self (snd (_read_eeprom start stop w))) = attributes (self w)).
Proof.
  intros H. apply construct_ok in H
    as (Hv & Hz & Hf & Hg & Hk & Hm & _ & Hw & _).
  repeat (split; [assumption|]).
  split; [rewrite Hm; destruct (py_is _ _); auto|].
  split; [assumption|].
  split; [apply keeps_get_luminance|].
  split; [apply keeps_get_voltage|].
  split; [apply keeps_get_measurement|].
  split; [apply keeps_read_adc|].
  intros start stop. apply keeps_read_eeprom.
Qed.

Lemma construct_loads_constants_witness :
  V_ref (self (snd (construct example_port lit_current))) = Some 1000000 /\
  K_cal (self (snd (construct example_port lit_current))) = Some 1000.
Proof.
  assert (E : construct example_port lit_current
              = (inr tt, snd (construct example_port lit_current)))
    by (vm_compute; reflexivity).
  pose proof (construct_loads_constants example_port lit_current _ E)
    as (Hv & _ & _ & _ & Hk & _).
  split; [rewrite Hv | rewrite Hk]; vm_compute; reflexivity.
Defined.

(** ** Mode checks *)

Lemma py_is_other (m : pystr) :
  interned m ->
  str_value m <> "current"%string -> str_value m <> "voltage"%string ->
  py_is m lit_current = false /\ py_is m lit_voltage = false.
Proof.
  intros [Hc Hv] Hnc Hnv. unfold py_is.
  split; apply Nat.eqb_neq; intros E.
  - apply Hnc. rewrite (Hc E). reflexivity.
  - apply Hnv. rewrite (Hv E). reflexivity.
Qed.

(** C2 (as amended): for every mode string that is neither "current" nor
    "voltage" the constructor never succeeds, but the mode is examined last:
    when calibration and the five reference reads succeed, it raises
    [OptiCalException] after the calibrate command and the twenty eeprom
    reads have been written (and no mode command); when one of them fails,
    it raises that failure. *)
Theorem construct_unsupported_mode (port : Serial) (mode_ : pystr) :
  interned mode_ ->
  str_value mode_ <> "current"%string ->
  str_value mode_ <> "voltage"%string ->
  (forall w', construct port mode_ <> (inr tt, w')) /\
  (forall w1,
     (_calibrate ;; _read_ref_defs) (new_instance port) = (inr tt, w1) ->
     construct port mode_
     = (inl (OptiCalException (unsupported_mode mode_)), w1) /\
     written (phot (self w1)) = (written port ++ init_commands "")%string) /\
  (forall e w1,
     (_calibrate ;; _read_ref_defs) (new_instance port) = (inl e, w1) ->
     construct port mode_ = (inl e, w1)).
Proof.
  intros Hi Hc Hv.
  destruct (py_is_other mode_ Hi Hc Hv) as [Ec Ev].
  assert (E : construct port mode_
              = (_calibrate ;; _read_ref_defs ;;
                 raise (OptiCalException (unsupported_mode mode_)))
                  (new_instance port)).
  { unfold construct, __init__. rewrite Ec, Ev. reflexivity. }
  rewrite E. unfold bind. repeat split.
  - intros w'. destruct (_calibrate _) as [[e|[]] w1]; [discriminate|].
    destruct (_read_ref_defs _) as [[e|[]] w2]; discriminate.
  - destruct (_calibrate _) as [[e|[]] w0]; [discriminate H|].
    rewrite H. reflexivity.
  - destruct (_calibrate (new_instance port)) as [[e|[]] w0] eqn:Hcal;
      [discriminate H|].
    apply send_command_ok in Hcal. subst w0.
    apply read_ref_defs_ok in H as (Hw & _).
    rewrite Hw. cbn [exchanged new_instance self phot with_phot written].
    unfold init_commands. rewrite !str_append_assoc, str_append_empty.
    reflexivity.
  - intros e w1 H. destruct (_calibrate _) as [[e0|[]] w0].
    + exact H.
    + rewrite H. reflexivity.
Qed.

Lemma construct_unsupported_mode_witness :
  construct example_port mode_foo
  = (inl (OptiCalException (unsupported_mode mode_foo)),
     snd ((_calibrate ;; _read_ref_defs) (new_instance example_port))).
Proof.
  refine (proj1 (proj1 (proj2
            (construct_unsupported_mode example_port mode_foo _ _ _)) _ _)).
  - split; discriminate.
  - discriminate.
  - discriminate.
  - vm_compute. reflexivity.
Defined.

(** C2 as stated fails: with the mode string "foo" and a device that
    answers, the constructor raises only after 21 bytes (calibrate and
    twenty eeprom reads) have been written to the port. *)
Lemma construct_foo_writes_first :
  fst (construct example_port mode_foo)
  = inl (OptiCalException
           "Mode: 'foo' is not supported by OptiCal, either use 'current'(default) or 'voltage'") /\
  written (phot (self (snd (construct example_port mode_foo))))
  = init_commands "" /\
  String.length (written (phot (self (snd (construct example_port mode_foo)))))
  = 21%nat /\
  written (phot (self (snd (construct example_port mode_foo))))
  <> written example_port.
Proof.
  split; [vm_compute; reflexivity|].
  split; [vm_compute; reflexivity|].
  split; [vm_compute; reflexivity|].
  vm_compute. discriminate.
Qed.

(** C8: on a ready instance the accessor of the other mode raises
    [OptiCalException] and leaves the state, the port included, exactly as
    it was: nothing is written. *)
Theorem wrong_accessor_raises (w : World) :
  Ready w ->
  (mode (self w) = Some lit_current ->
   get_voltage w
   = (inl (OptiCalException
             "get_voltage() is only available in 'voltage' mode"), w)) /\
  (mode (self w) = Some lit_voltage ->
   get_luminance w
   = (inl (OptiCalException
             "get_luminance() is only available in 'current' mode"), w)).
Proof.
  intros _. split; intros Hm.
  - unfold get_voltage, bind, getattr. rewrite Hm. reflexivity.
  - unfold get_luminance, bind, getattr. rewrite Hm. reflexivity.
Qed.

Lemma wrong_accessor_raises_witness :
  get_voltage (snd (construct example_port lit_current))
  = (inl (OptiCalException
            "get_voltage() is only available in 'voltage' mode"),
     snd (construct example_port lit_current)).
Proof.
  refine (proj1 (wrong_accessor_raises
                   (snd (construct example_port lit_current)) _) _).
  - apply (construct_Ready example_port lit_current).
    vm_compute. reflexivity.
  - vm_compute. reflexivity.
Defined.

(** ** Measurement in voltage mode *)

(** In voltage mode [_get_measurement] never returns: whenever the ADC read
    and the numerator go through, [denominator] is unbound at the
    division. *)
Lemma voltage_mode_never_returns (w : World) :
  mode (self w) = Some lit_voltage ->
  forall x, fst (_get_measurement w) <> inr x.
Proof.
  intros Hm x. unfold _get_measurement. unfold bind at 1.
  pose proof (keeps_read_adc w) as Hk.
  destruct (_read_adc w) as [[e|adc] w1]; [discriminate|].
  cbn [snd] in Hk. unfold attributes in Hk.
  injection Hk as Hk _ _ _ _ _. rewrite Hm in Hk.
  unfold bind, lift, getattr, ret, raise.
  destruct (Float.of_int adc); [discriminate|].
  destruct (Float.div _ _); [discriminate|].
  destruct (V_ref (self w1)); [|discriminate].
  destruct (Float.of_int _); [discriminate|].
  rewrite Hk. cbn. discriminate.
Qed.

Lemma get_voltage_never_returns (w : World) :
  mode (self w) = Some lit_voltage ->
  forall x, fst (get_voltage w) <> inr x.
Proof.
  intros Hm x. unfold get_voltage, bind at 1, getattr at 1. rewrite Hm.
  cbn [py_is lit_voltage str_id Nat.eqb negb].
  apply voltage_mode_never_returns. exact Hm.
Qed.

(** C1, on the code: a driver constructed in voltage mode and given a valid
    ADC response does not return the numerator; [get_voltage] raises
    [UnboundLocalError] for the local [denominator], which only the current
    mode assigns. *)
Theorem get_voltage_unbound_denominator :
  fst (construct example_port lit_voltage) = inr tt /\
  mode (self (snd (construct example_port lit_voltage))) = Some lit_voltage /\
  fst (get_voltage (snd (construct example_port lit_voltage)))
  = inl (UnboundLocalError "denominator").
Proof. repeat split; vm_compute; reflexivity. Qed.

(** The same device in current mode: the measurement is
    [numerator / denominator], here 0.125 / 1e-12. *)
Example get_luminance_example :
  fst (get_luminance (snd (construct example_port lit_current)))
  = inr (S754_finite false 8192000000000000 (-16)).
Proof. vm_compute. reflexivity. Qed.

(** * Further properties of the driver *)

(** ** Address ranges *)

Lemma range_length (start stop : Z) :
  List.length (Py.range start stop) = Z.to_nat (stop - start).
Proof. unfold Py.range. rewrite length_map, length_seq. reflexivity. Qed.

Lemma range_In (start stop a : Z) :
  In a (Py.range start stop) -> start <= a < stop.
Proof.
  unfold Py.range. rewrite in_map_iff. intros (k & <- & Hk).
  apply in_seq in Hk. lia.
Qed.

Lemma range_valid (start stop : Z) :
  0 <= start -> stop < 100 ->
  Forall (fun a => 0 <= a < 100) (Py.range start (stop + 1)).
Proof.
  intros Hs He. apply Forall_forall. intros a Ha.
  apply range_In in Ha. lia.
Qed.

Lemma range_firstn (start stop : Z) (k : nat) :
  (k <= Z.to_nat (stop - start))%nat ->
  firstn k (Py.range start stop) = Py.range start (start + Z.of_nat k).
Proof.
  intros Hk. unfold Py.range. rewrite firstn_map.
  replace (Z.to_nat (start + Z.of_nat k - start)) with k by lia.
  replace (Z.to_nat (stop - start))
    with (k + (Z.to_nat (stop - start) - k))%nat by lia.
  rewrite seq_app, firstn_app, length_seq, Nat.sub_diag.
  cbn [firstn]. rewrite app_nil_r, firstn_all2 by (rewrite length_seq; lia).
  reflexivity.
Qed.

Lemma range_nth (start stop : Z) (k : nat) :
  (k < Z.to_nat (stop - start))%nat ->
  nth k (Py.range start stop) 0 = start + Z.of_nat k.
Proof.
  intros Hk. unfold Py.range.
  rewrite (nth_indep _ 0 ((fun i => start + Z.of_nat i) 0%nat))
    by (rewrite length_map, length_seq; exact Hk).
  rewrite (map_nth (fun i => start + Z.of_nat i)).
  rewrite seq_nth by exact Hk. reflexivity.
Qed.

Lemma span_range (start stop : Z) :
  List.length (Py.range start (stop + 1)) = span start stop.
Proof. apply range_length. Qed.

(** ** Ranges of eeprom reads *)

Lemma acceptable_test (size : nat) (r : string) :
  acceptable size r <-> acceptableb size r = true.
Proof.
  unfold acceptable, acceptableb.
  rewrite andb_true_iff, !negb_true_iff, String.eqb_neq.
  split; intros [H1 H2]; (split; [exact H1|]).
  - apply contains_NACK_free. exact H2.
  - intros Ho. apply contains_NACK_occurs in Ho. congruence.
Qed.

Lemma acceptable_all (size : nat) (l : list string) :
  forallb (acceptableb size) l = true -> Forall (acceptable size) l.
Proof.
  intros H. apply Forall_forall. intros r Hr. apply acceptable_test.
  rewrite forallb_forall in H. apply H. exact Hr.
Qed.

Lemma unacceptable_test (size : nat) (r : string) :
  acceptableb size r = false -> ~ acceptable size r.
Proof. intros H Ha. apply acceptable_test in Ha. congruence. Qed.

Lemma read_eeprom_single_accepts (address : Z) (w : World) (r : string)
  (rest : list string) :
  0 <= address < 100 ->
  incoming (phot (self w)) = r :: rest ->
  acceptable 2 r ->
  _read_eeprom_single address w
  = (inr (Py.char (head_byte r)), exchanged (eeprom_command address) w).
Proof.
  intros Ha Hin [Hne Hn]. rewrite read_eeprom_single_eq by assumption.
  rewrite (next_response_cons 2 w r rest Hin).
  rewrite check_return_pass by assumption.
  destruct r as [|c r]; [contradiction Hne; reflexivity|]. reflexivity.
Qed.

Lemma read_eeprom_single_rejects (address : Z) (w : World) :
  0 <= address < 100 ->
  ~ acceptable 2 (hd EmptyString (incoming (phot (self w)))) ->
  _read_eeprom_single address w
  = (inl (rejection
            (String.substring 0 2 (hd EmptyString (incoming (phot (self w)))))
            (eeprom_description address)),
     exchanged (eeprom_command address) w).
Proof.
  intros Ha Hbad. rewrite read_eeprom_single_eq by assumption.
  assert (E : next_response 2 w
              = String.substring 0 2 (hd EmptyString (incoming (phot (self w))))).
  { unfold next_response, Serial_read.
    destruct (incoming (phot (self w))); reflexivity. }
  rewrite E. fold (eeprom_description address).
  set (r := String.substring 0 2 _) in *.
  unfold rejection, _check_return, acceptable in *. fold r in Hbad.
  destruct (String.eqb_spec r EmptyString) as [Hr|Hr]; [reflexivity|].
  destruct (Py.contains NACK r) eqn:Hc; [reflexivity|].
  exfalso. apply Hbad. split; [exact Hr|].
  intros Ho. apply contains_NACK_occurs in Ho. congruence.
Qed.

Lemma read_eeprom_loop_accepts (addresses : list Z) :
  forall (acc : list string) (w : World),
    Forall (fun a => 0 <= a < 100) addresses ->
    (List.length addresses <= List.length (incoming (phot (self w))))%nat ->
    Forall (acceptable 2)
      (firstn (List.length addresses) (incoming (phot (self w)))) ->
    _read_eeprom_loop addresses acc w
    = (inr (acc ++ map (fun r => Py.char (head_byte r))
                     (firstn (List.length addresses)
                        (incoming (phot (self w))))),
       exchanged_all (map eeprom_command addresses) w).
Proof.
  induction addresses as [|a addresses IH]; intros acc w Hv Hlen Hok.
  - cbn. rewrite app_nil_r. reflexivity.
  - inversion Hv as [|? ? Ha Hv']; subst.
    destruct (incoming (phot (self w))) as [|r rest] eqn:Hin;
      [cbn in Hlen; lia|].
    cbn [List.length firstn] in Hok. inversion Hok as [|? ? Hr Hok']; subst.
    cbn [_read_eeprom_loop]. unfold bind.
    rewrite (read_eeprom_single_accepts a w r rest Ha Hin Hr).
    rewrite IH; cbn [exchanged self phot with_phot incoming];
      rewrite ?Hin; cbn [tl]; try assumption; [|cbn in Hlen; lia].
    cbn [List.length firstn map]. rewrite <- app_assoc. reflexivity.
Qed.

Lemma read_eeprom_loop_rejects (addresses : list Z) :
  forall (k : nat) (acc : list string) (w : World),
    Forall (fun a => 0 <= a < 100) addresses ->
    (k < List.length addresses)%nat ->
    (k <= List.length (incoming (phot (self w))))%nat ->
    Forall (acceptable 2) (firstn k (incoming (phot (self w)))) ->
    ~ acceptable 2 (nth k (incoming (phot (self w))) EmptyString) ->
    _read_eeprom_loop addresses acc w
    = (inl (rejection
              (String.substring 0 2
                 (nth k (incoming (phot (self w))) EmptyString))
              (eeprom_description (nth k addresses 0))),
       exchanged_all (map eeprom_command (firstn (S k) addresses)) w).
Proof.
  induction addresses as [|a addresses IH]; intros k acc w Hv Hk Hlen Hok Hbad;
    [cbn in Hk; lia|].
  inversion Hv as [|? ? Ha Hv']; subst.
  cbn [_read_eeprom_loop]. unfold bind. destruct k as [|k].
  - rewrite read_eeprom_single_rejects; try assumption.
    + destruct (incoming (phot (self w))); reflexivity.
    + destruct (incoming (phot (self w))); exact Hbad.
  - destruct (incoming (phot (self w))) as [|r rest] eqn:Hin;
      [cbn in Hlen; lia|].
    cbn [firstn] in Hok. inversion Hok as [|? ? Hr Hok']; subst.
    rewrite (read_eeprom_single_accepts a w r rest Ha Hin Hr).
    cbn [nth] in *.
    rewrite (IH k); cbn [exchanged self phot with_phot incoming];
      rewrite ?Hin; cbn [tl]; try assumption;
      [reflexivity | cbn in Hk; lia | cbn in Hlen; lia].
Qed.

(** X1: a range read that returns has read one byte per address: the first
    byte of each of the next responses, in order; it has written the command
    bytes of the addresses in increasing order, consumed one response per
    address and left attributes and standard output alone. *)
Theorem read_eeprom_returns (start stop : Z) (w w' : World) (l : list string) :
  0 <= start -> stop < 100 ->
  _read_eeprom start stop w = (inr l, w') ->
  l = map (fun r => Py.char (head_byte r))
        (firstn (span start stop) (incoming (phot (self w)))) /\
  List.length l = span start stop /\
  written (phot (self w'))
  = (written (phot (self w)) ++ eeprom_commands start stop)%string /\
  incoming (phot (self w')) = skipn (span start stop) (incoming (phot (self w))) /\
  attributes (self w') = attributes (self w) /\
  stdout w' = stdout w.
Proof.
  intros Hs He H. unfold _read_eeprom in H.
  apply read_eeprom_loop_ok in H as (-> & -> & Hlen);
    [|apply range_valid; assumption].
  rewrite span_range in *. cbn [app].
  rewrite length_map, length_firstn, Nat.min_l by exact Hlen.
  rewrite exchanged_all_written, exchanged_all_incoming,
    exchanged_all_attributes, exchanged_all_stdout, length_map, span_range.
  repeat split.
Qed.

Lemma read_eeprom_returns_witness :
  written (phot (self (snd (_read_eeprom 16 19
                              (exchanged "C" (new_instance example_port))))))
  = ("C" ++ eeprom_commands 16 19)%string.
Proof.
  refine (proj1 (proj2 (proj2
            (read_eeprom_returns 16 19
               (exchanged "C" (new_instance example_port)) _
               (map (fun n => Py.char (ascii_of_N n)) [64; 66; 15; 0]%N)
               _ _ _)))).
  - lia.
  - lia.
  - vm_compute. reflexivity.
Defined.

(** X2: a range read returns whenever the device answers every address with
    a response that passes the validator: no other condition is needed. *)
Theorem read_eeprom_succeeds (start stop : Z) (w : World) :
  0 <= start -> stop < 100 ->
  (span start stop <= List.length (incoming (phot (self w))))%nat ->
  Forall (acceptable 2) (firstn (span start stop) (incoming (phot (self w)))) ->
  _read_eeprom start stop w
  = (inr (map (fun r => Py.char (head_byte r))
            (firstn (span start stop) (incoming (phot (self w))))),
     exchanged_all (map eeprom_command (Py.range start (stop + 1))) w).
Proof.
  intros Hs He Hlen Hok. unfold _read_eeprom.
  rewrite read_eeprom_loop_accepts; rewrite ?span_range;
    [reflexivity | apply range_valid | |]; assumption.
Qed.

Lemma read_eeprom_succeeds_witness :
  fst (_read_eeprom 16 19 (exchanged "C" (new_instance example_port)))
  = inr (map (fun n => Py.char (ascii_of_N n)) [64; 66; 15; 0]%N).
Proof.
  refine (f_equal fst
            (read_eeprom_succeeds 16 19
               (exchanged "C" (new_instance example_port)) _ _ _ _)).
  - lia.
  - lia.
  - vm_compute. lia.
  - apply acceptable_all. vm_compute. reflexivity.
Defined.

(** X3: a range read stops at the first response the validator rejects: it
    raises the timeout or NACK exception whose description names that
    address, having written the commands up to and including that address
    and none after it. *)
Theorem read_eeprom_first_rejection (start stop : Z) (k : nat) (w : World) :
  0 <= start -> stop < 100 ->
  (k < span start stop)%nat ->
  (k <= List.length (incoming (phot (self w))))%nat ->
  Forall (acceptable 2) (firstn k (incoming (phot (self w)))) ->
  ~ acceptable 2 (nth k (incoming (phot (self w))) EmptyString) ->
  fst (_read_eeprom start stop w)
  = inl (rejection
           (String.substring 0 2 (nth k (incoming (phot (self w))) EmptyString))
           (eeprom_description (start + Z.of_nat k))) /\
  written (phot (self (snd (_read_eeprom start stop w))))
  = (written (phot (self w))
     ++ eeprom_commands start (start + Z.of_nat k))%string /\
  incoming (phot (self (snd (_read_eeprom start stop w))))
  = skipn (S k) (incoming (phot (self w))).
Proof.
  intros Hs He Hk Hlen Hok Hbad. unfold _read_eeprom.
  rewrite (read_eeprom_loop_rejects _ k); rewrite ?span_range;
    try assumption; [|apply range_valid; assumption].
  cbn [fst snd]. unfold span in Hk.
  rewrite range_nth by lia.
  rewrite range_firstn by lia.
  rewrite exchanged_all_written, exchanged_all_incoming, length_map,
    range_length.
  unfold eeprom_commands.
  replace (start + Z.of_nat (S k)) with (start + Z.of_nat k + 1) by lia.
  replace (Z.to_nat (start + Z.of_nat k + 1 - start)) with (S k) by lia.
  repeat split.
Qed.

Lemma read_eeprom_first_rejection_witness :
  fst (_read_eeprom 16 19
         (new_instance {| written := ""; incoming := [String "@" ACK] |}))
  = inl (TimeoutException "reading eeprom at address 17").
Proof.
  refine (proj1 (read_eeprom_first_rejection 16 19 1
                   (new_instance
                      {| written := ""; incoming := [String "@" ACK] |})
                   _ _ _ _ _ _)).
  - lia.
  - lia.
  - vm_compute. lia.
  - vm_compute. lia.
  - apply acceptable_all. vm_compute. reflexivity.
  - apply unacceptable_test. vm_compute. reflexivity.
Defined.

(** X4: a range whose stop lies below its start reads nothing: the empty
    list is returned and the port is not touched; decoding that list raises
    [ValueError]. *)
Theorem read_eeprom_empty_range (start stop : Z) (w : World) :
  stop < start ->
  _read_eeprom start stop w = (inr [], w) /\
  (l <- _read_eeprom start stop ;; to_int_value l) w = (inl ValueError, w).
Proof.
  intros H. unfold bind, _read_eeprom, Py.range.
  replace (Z.to_nat (stop + 1 - start)) with 0%nat by lia.
  split; reflexivity.
Qed.

Lemma read_eeprom_empty_range_witness :
  _read_eeprom 19 16 (new_instance example_port)
  = (inr [], new_instance example_port).
Proof.
  refine (proj1 (read_eeprom_empty_range 19 16 (new_instance example_port) _)).
  lia.
Defined.

(** ** Single exchanges *)




(** X6: the driver never compares a response with ACK.  A control command
    is taken as acknowledged by any single byte other than NACK, and an
    eeprom read returns its first byte whatever second byte follows, or
    none, as long as no NACK is read. *)
Theorem any_byte_acknowledges (w : World) (c : ascii) :
  c <> nack_byte ->
  (forall command description,
     next_response 1 w = Py.char c ->
     _send_command command description w = (inr tt, exchanged command w)) /\
  (forall address c2,
     0 <= address < 100 -> c2 <> nack_byte ->
     next_response 2 w = String c (Py.char c2) ->
     _read_eeprom_single address w
     = (inr (Py.char c), exchanged (eeprom_command address) w)).
Proof.
  intros Hc. split.
  - intros command description E. rewrite send_command_eq, E.
    apply check_return_pass; [discriminate|].
    unfold occurs. cbn [list_ascii_of_string Py.char In].
    intros [H|[]]. congruence.
  - intros address c2 Ha Hc2 E. rewrite read_eeprom_single_eq, E by assumption.
    rewrite check_return_pass; [reflexivity | discriminate |].
    unfold occurs. cbn [list_ascii_of_string Py.char In].
    intros [H|[H|[]]]; congruence.
Qed.

(** Calibration answered by the letter Z counts as acknowledged. *)
Lemma any_byte_acknowledges_witness :
  _calibrate (new_instance {| written := ""; incoming := ["Z"%string] |})
  = (inr tt, new_instance {| written := "C"; incoming := [] |}).
Proof.
  refine (proj1 (any_byte_acknowledges
                   (new_instance {| written := ""; incoming := ["Z"%string] |})
                   "Z"%char _) "C"%string "calibrate"%string _).
  - discriminate.
  - reflexivity.
Defined.

Lemma set_mode_eq (m : pystr) (command description : string) (w : World) :
  (update_self (with_mode m) ;; _send_command command description) w
  = _check_return (next_response 1 w) description
      (exchanged command
         {| self := with_mode m (self w); stdout := stdout w |}).
Proof.
  unfold bind at 1, update_self at 1. cbv beta iota.
  rewrite send_command_eq. reflexivity.
Qed.

(** X7: [_set_current_mode] and [_set_voltage_mode] assign [self.mode]
    before they talk to the device: whatever the device answers, the mode is
    the new one afterwards, the constants are untouched and exactly the one
    command byte has been written. *)
Theorem set_mode_assigns_first (w : World) :
  (mode (self (snd (_set_current_mode w))) = Some lit_current /\
   phot (self (snd (_set_current_mode w))) = phot (self (exchanged "I" w)) /\
   snd (attributes (self (snd (_set_current_mode w))))
   = snd (attributes (self w))) /\
  (mode (self (snd (_set_voltage_mode w))) = Some lit_voltage /\
   phot (self (snd (_set_voltage_mode w))) = phot (self (exchanged "V" w)) /\
   snd (attributes (self (snd (_set_voltage_mode w))))
   = snd (attributes (self w))) /\
  (next_response 1 w = EmptyString ->
   fst (_set_current_mode w) = inl (TimeoutException "set current mode") /\
   fst (_set_voltage_mode w) = inl (TimeoutException "set voltage mode")).
Proof.
  unfold _set_current_mode, _set_voltage_mode.
  rewrite !set_mode_eq, !check_return_state.
  split; [repeat split|]. split; [repeat split|].
  intros E. rewrite E. split; reflexivity.
Qed.

Lemma set_mode_assigns_first_witness :
  fst (_set_voltage_mode (new_instance {| written := ""; incoming := [] |}))
  = inl (TimeoutException "set voltage mode") /\
  mode (self (snd (_set_voltage_mode
                     (new_instance {| written := ""; incoming := [] |}))))
  = Some lit_voltage.
Proof.
  pose proof (set_mode_assigns_first
                (new_instance {| written := ""; incoming := [] |}))
    as (_ & (Hm & _) & Ht).
  split; [exact (proj2 (Ht eq_refl)) | exact Hm].
Defined.

(** X8: when calibration is not acknowledged the constructor stops there:
    it raises the validator's exception described as "calibrate", only the
    byte ['C'] has been written, and no attribute has been assigned,
    whatever the requested mode. *)
Theorem construct_calibrate_rejected (port : Serial) (mode_ : pystr) :
  ~ acceptable 1 (hd EmptyString (incoming port)) ->
  construct port mode_
  = (inl (rejection (String.substring 0 1 (hd EmptyString (incoming port)))
            "calibrate"),
     exchanged "C" (new_instance port)) /\
  written (phot (self (snd (construct port mode_))))
  = (written port ++ "C")%string /\
  attributes (self (snd (construct port mode_)))
  = (None, (None, None, None, None, None)).
Proof.
  intros Hbad.
  assert (E : _calibrate (new_instance port)
              = (inl (rejection
                        (String.substring 0 1 (hd EmptyString (incoming port)))
                        "calibrate"),
                 exchanged "C" (new_instance port))).
  { unfold _calibrate. rewrite send_command_eq.
    assert (En : next_response 1 (new_instance port)
                 = String.substring 0 1 (hd EmptyString (incoming port))).
    { unfold next_response, Serial_read. cbn [new_instance self phot].
      destruct (incoming port); reflexivity. }
    rewrite En. set (r := String.substring 0 1 _) in *.
    unfold rejection, _check_return.
    destruct (String.eqb_spec r EmptyString) as [Hr|Hr]; [reflexivity|].
    destruct (Py.contains NACK r) eqn:Hc; [reflexivity|].
    exfalso. apply Hbad. split; [exact Hr|].
    intros Ho. apply contains_NACK_occurs in Ho. fold r in Ho. congruence. }
  unfold construct, __init__, bind. rewrite E. repeat split.
Qed.

(** A device that does not answer at all. *)
Lemma construct_calibrate_rejected_witness :
  construct {| written := ""; incoming := [] |} lit_current
  = (inl (TimeoutException "calibrate"),
     new_instance {| written := "C"; incoming := [] |}).
Proof.
  refine (proj1 (construct_calibrate_rejected
                   {| written := ""; incoming := [] |} lit_current _)).
  apply unacceptable_test. reflexivity.
Defined.

(** ** More on [to_int] *)

Lemma byte_value_bound (c : ascii) : 0 <= Py.byte_value c < 256.
Proof.
  unfold Py.byte_value. pose proof (N_ascii_bounded c). lia.
Qed.

Lemma byte_value_inj (c d : ascii) :
  Py.byte_value c = Py.byte_value d -> c = d.
Proof.
  unfold Py.byte_value. intros H. apply N2Z.inj in H.
  rewrite <- (ascii_N_embedding c), <- (ascii_N_embedding d), H.
  reflexivity.
Qed.

Lemma little_endian_sum_bound (l : list ascii) :
  0 <= little_endian_sum l < 256 ^ Z.of_nat (List.length l).
Proof.
  induction l as [|c l IH]; [cbn; lia|].
  rewrite little_endian_sum_cons. cbn [List.length].
  rewrite Nat2Z.inj_succ, Z.pow_succ_r by lia.
  pose proof (byte_value_bound c). lia.
Qed.

Lemma little_endian_sum_inj (a : list ascii) :
  forall b, List.length a = List.length b ->
            little_endian_sum a = little_endian_sum b -> a = b.
Proof.
  induction a as [|c a IH]; intros [|d b] Hlen H; try discriminate Hlen;
    [reflexivity|].
  rewrite !little_endian_sum_cons in H.
  pose proof (byte_value_bound c). pose proof (byte_value_bound d).
  assert (Hc : Py.byte_value c = Py.byte_value d) by lia.
  f_equal; [apply byte_value_inj; exact Hc|].
  apply IH; [cbn in Hlen; lia | lia].
Qed.

(** X9: [to_int] of [n] bytes (n at least 1) returns a value that lies in
    [0, 256^n): the four-byte constants are below 2^32 and the three-byte
    ADC sample is below 2^24. *)
Theorem to_int_range (bytes : list ascii) :
  bytes <> [] ->
  exists v,
    snd (to_int (map Py.char bytes)) = inr v /\
    0 <= v < 256 ^ Z.of_nat (List.length bytes).
Proof.
  intros Hne. exists (little_endian_sum bytes).
  rewrite (to_int_chars bytes Hne). split; [reflexivity|].
  apply little_endian_sum_bound.
Qed.

Lemma to_int_range_witness :
  exists v,
    snd (to_int (map Py.char ["255"; "255"; "255"]%char)) = inr v /\
    0 <= v < 256 ^ 3.
Proof.
  exact (to_int_range ["255"; "255"; "255"]%char ltac:(discriminate)).
Defined.

(** X10: [to_int] loses nothing: two byte sequences of the same (non-zero)
    length that decode to the same integer are the same sequence. *)
Theorem to_int_injective (a b : list ascii) :
  a <> [] ->
  List.length a = List.length b ->
  snd (to_int (map Py.char a)) = snd (to_int (map Py.char b)) ->
  a = b.
Proof.
  intros Ha Hlen H.
  assert (Hb : b <> []) by (destruct a, b; try discriminate; congruence).
  rewrite (to_int_chars a Ha), (to_int_chars b Hb) in H. cbn [snd] in H.
  injection H as H. apply little_endian_sum_inj; assumption.
Qed.

Lemma to_int_injective_witness :
  ["001"; "002"]%char = ["001"; "002"]%char.
Proof.
  exact (to_int_injective ["001"; "002"]%char ["001"; "002"]%char
           ltac:(discriminate) eq_refl eq_refl).
Defined.

(** X11: because [to_int] reverses its argument in place, decoding the same
    list object twice gives two different readings: the second call returns
    the value of the bytes read most significant byte first, and leaves the
    list in its original order. *)
Theorem to_int_twice (h : store) (r : ref) (bytes : list ascii) :
  h r = Some (map Py.char bytes) ->
  bytes <> [] ->
  snd (call_to_int r h) = inr (little_endian_sum bytes) /\
  snd (call_to_int r (fst (call_to_int r h)))
  = inr (little_endian_sum (rev bytes)) /\
  fst (call_to_int r (fst (call_to_int r h))) r = Some (map Py.char bytes).
Proof.
  intros Hr Hne.
  assert (Hrev : rev bytes <> []).
  { intros E. apply Hne. rewrite <- (rev_involutive bytes), E. reflexivity. }
  unfold call_to_int at 1 3 5. rewrite Hr, (to_int_chars bytes Hne).
  cbn [fst snd]. unfold call_to_int, store_set. rewrite Nat.eqb_refl.
  rewrite (to_int_chars (rev bytes) Hrev). cbn [fst snd].
  rewrite Nat.eqb_refl, rev_involutive. repeat split.
Qed.

Lemma to_int_twice_witness :
  let h := store_set 0%nat (map Py.char ["001"; "000"]%char) (fun _ => None) in
  snd (call_to_int 0%nat h) = inr 1 /\
  snd (call_to_int 0%nat (fst (call_to_int 0%nat h))) = inr 256.
Proof.
  pose proof (to_int_twice
                (store_set 0%nat (map Py.char ["001"; "000"]%char)
                   (fun _ => None))
                0%nat ["001"; "000"]%char eq_refl ltac:(discriminate))
    as (H1 & H2 & _).
  split; [exact H1 | exact H2].
Defined.

(** ** More on the ADC reader *)

Lemma ks_ret {A : Type} (a : A) : keeps_self (ret a).
Proof. intros w. reflexivity. Qed.

Lemma ks_raise {A : Type} (e : exn) : keeps_self (@raise A e).
Proof. intros w. reflexivity. Qed.

Lemma ks_lift {A : Type} (r : result A) : keeps_self (lift r).
Proof. intros w. reflexivity. Qed.

Lemma ks_print (line : string) : keeps_self (print line).
Proof. intros w. reflexivity. Qed.

Lemma ks_getattr {A : Type} (name : string) (field : OptiCal -> option A) :
  keeps_self (getattr name field).
Proof. intros w. unfold getattr. destruct (field (self w)); reflexivity. Qed.

Lemma ks_bind {A B : Type} (c : M A) (k : A -> M B) :
  keeps_self c -> (forall a, keeps_self (k a)) -> keeps_self (bind c k).
Proof.
  intros Hc Hk w. unfold bind. specialize (Hc w).
  destruct (c w) as [[e|a] w1]; cbn [snd] in *; [exact Hc|].
  rewrite Hk. exact Hc.
Qed.

(** Splits a method body along its binds; the leaves leave [self] alone. *)
Ltac keeps_self :=
  repeat first
    [ apply ks_ret | apply ks_raise | apply ks_lift | apply ks_print
    | apply ks_getattr
    | apply ks_bind; [| intro]
    | match goal with
      | |- keeps_self (if ?b then _ else _) => destruct b
      | |- keeps_self (match ?x with _ => _ end) => destruct x
      end ].

Lemma read_adc_self (w : World) :
  self (snd (_read_adc w)) = self (exchanged "L" w).
Proof.
  rewrite read_adc_eq.
  pose proof (check_return_state (next_response 4 w) "reading adc value"
                (exchanged "L" w)) as Hs.
  destruct (_check_return _ _ _) as [[e|[]] w1]; cbn [snd] in Hs; subst w1;
    [reflexivity|].
  cbv zeta. unfold to_int_value.
  match goal with |- self (snd (?c _)) = _ => assert (H : keeps_self c) end.
  { keeps_self. }
  apply H.
Qed.

Lemma little_endian_sum_3 (c0 c1 c2 : ascii) :
  little_endian_sum [c0; c1; c2]
  = Py.byte_value c0 + Z.shiftl (Py.byte_value c1) 8
    + Z.shiftl (Py.byte_value c2) 16.
Proof.
  rewrite !little_endian_sum_cons. change (little_endian_sum []) with 0.
  rewrite !Z.shiftl_mul_pow2 by lia.
  change (2 ^ 8) with 256. change (2 ^ 16) with 65536. lia.
Qed.

(** What [_read_adc] does once the validator has passed the response. *)
Lemma read_adc_decoded (w : World) :
  _check_return (next_response 4 w) "reading adc value" (exchanged "L" w)
  = (inr tt, exchanged "L" w) ->
  (exists c0 c1 c2 c3 t,
     next_response 4 w = String c0 (String c1 (String c2 (String c3 t))) /\
     _read_adc w
     = match Z_count (self w) with
       | Some zero =>
           (inr (little_endian_sum [c0; c1; c2] - zero - 524288),
            {| self := self (exchanged "L" w);
               stdout :=
                 stdout w
                 ++ [("adc_mine "
                      ++ Py.str_of_int (little_endian_sum [c0; c1; c2]))%string;
                     Py.str_of_int (little_endian_sum [c0; c1; c2])] |})
       | None =>
           (inl (AttributeError "Z_count"),
            {| self := self (exchanged "L" w);
               stdout :=
                 stdout w
                 ++ [("adc_mine "
                      ++ Py.str_of_int (little_endian_sum [c0; c1; c2]))%string;
                     Py.str_of_int (little_endian_sum [c0; c1; c2])] |})
       end) \/
  ((String.length (next_response 4 w) <= 3)%nat /\
   _read_adc w = (inl IndexError, exchanged "L" w)).
Proof.
  intros Hc. rewrite read_adc_eq, Hc.
  destruct (next_response 4 w) as [|c0 [|c1 [|c2 [|c3 t]]]] eqn:E;
    try (right; split; [cbn; lia | reflexivity]).
  left. exists c0, c1, c2, c3, t. split; [reflexivity|].
  cbv zeta. unfold Py.drop_last.
  cbn [String.length Nat.sub String.substring].
  unfold to_int_value.
  unfold bind at 1, lift at 1. cbn [Py.getitem String.get].
  unfold bind at 1, lift at 1. cbn [Py.getitem String.get].
  unfold bind at 1, lift at 1. cbn [Py.getitem String.get].
  change [Py.char c0; Py.char c1; Py.char c2]
    with (map Py.char [c0; c1; c2]).
  rewrite to_int_chars by discriminate.
  unfold bind, lift, print, getattr, ret. cbn [snd Py.ord Py.char self stdout].
  change (Z_count (self (exchanged "L" w))) with (Z_count (self w)).
  rewrite <- little_endian_sum_3, <- app_assoc.
  destruct (Z_count (self w)); reflexivity.
Qed.

(** X12: an ADC response of one to three bytes without NACK passes the
    validator and then fails in the decoding: [_read_adc] raises
    [IndexError] (not a timeout), after the command has been written and
    before anything is printed. *)
Theorem read_adc_short_response (w : World) (r : string) (rest : list string) :
  incoming (phot (self w)) = r :: rest ->
  (1 <= String.length r <= 3)%nat ->
  ~ occurs nack_byte r ->
  _read_adc w = (inl IndexError, exchanged "L" w) /\
  stdout (exchanged "L" w) = stdout w.
Proof.
  intros Hin Hlen Hn. split; [|reflexivity].
  assert (E : next_response 4 w = r).
  { rewrite (next_response_cons 4 w r rest Hin).
    destruct r as [|c0 [|c1 [|c2 [|c3 t]]]]; cbn in Hlen |- *;
      try reflexivity; lia. }
  destruct (read_adc_decoded w) as [(c0 & c1 & c2 & c3 & t & E4 & _)|[_ H]].
  - rewrite E. apply check_return_pass; [|exact Hn].
    destruct r; [cbn in Hlen; lia | discriminate].
  - rewrite E in E4. rewrite E4 in Hlen. cbn in Hlen. lia.
  - exact H.
Qed.

Lemma read_adc_short_response_witness :
  _read_adc (new_instance {| written := ""; incoming := ["ab"%string] |})
  = (inl IndexError, new_instance {| written := "L"; incoming := [] |}).
Proof.
  refine (proj1 (read_adc_short_response
                   (new_instance {| written := ""; incoming := ["ab"%string] |})
                   "ab"%string [] _ _ _)).
  - reflexivity.
  - cbn. lia.
  - unfold occurs. cbn. intros [H|[H|[]]]; discriminate H.
Defined.

(** X13: whenever [_read_adc] returns, the value lies in
    [-524288 - Z_count, 16252928 - Z_count), and exactly two lines have
    been printed, both showing the same undecorated sample (the value plus
    [Z_count] plus 524288): the decoding by [to_int] and the one by shifts
    agree. *)
Theorem read_adc_returns (w w' : World) (v zero : Z) :
  Z_count (self w) = Some zero ->
  _read_adc w = (inr v, w') ->
  - 524288 - zero <= v < 16252928 - zero /\
  stdout w'
  = stdout w ++ [("adc_mine " ++ Py.str_of_int (v + zero + 524288))%string;
                 Py.str_of_int (v + zero + 524288)] /\
  self w' = self (exchanged "L" w).
Proof.
  intros Hz H.
  assert (Hc : _check_return (next_response 4 w) "reading adc value"
                 (exchanged "L" w) = (inr tt, exchanged "L" w)).
  { rewrite read_adc_eq in H.
    pose proof (check_return_state (next_response 4 w) "reading adc value"
                  (exchanged "L" w)) as Hs.
    destruct (_check_return _ _ _) as [[e|[]] w1]; [discriminate H|].
    cbn [snd] in Hs. subst w1. reflexivity. }
  destruct (read_adc_decoded w Hc) as [(c0 & c1 & c2 & c3 & t & _ & E)|[_ E]];
    rewrite E in H; [|discriminate H].
  rewrite Hz in H. injection H as <- <-. cbn [self stdout].
  pose proof (little_endian_sum_bound [c0; c1; c2]) as Hb.
  cbn [List.length] in Hb. change (256 ^ Z.of_nat 3) with 16777216 in Hb.
  replace (little_endian_sum [c0; c1; c2] - zero - 524288 + zero + 524288)
    with (little_endian_sum [c0; c1; c2]) by lia.
  repeat split; lia.
Qed.

Lemma read_adc_returns_witness :
  stdout (snd (_read_adc (snd (construct example_port lit_current))))
  = ["adc_mine 589824"; "589824"]%string.
Proof.
  refine (proj1 (proj2
            (read_adc_returns (snd (construct example_port lit_current)) _
               65536 0 _ _))).
  - vm_compute. reflexivity.
  - vm_compute. reflexivity.
Defined.

(** ** More on the measurement *)

Lemma get_measurement_self (w : World) :
  self (snd (_get_measurement w)) = self (exchanged "L" w).
Proof.
  unfold _get_measurement. unfold bind at 1.
  pose proof (read_adc_self w) as Hs.
  destruct (_read_adc w) as [[e|adc] w1]; cbn [snd] in Hs; [exact Hs|].
  rewrite <- Hs.
  match goal with |- self (snd (?c _)) = _ => assert (H : keeps_self c) end.
  { keeps_self. }
  apply H.
Qed.

(** X14: a measurement is one exchange and nothing else: in the matching
    mode, whatever the outcome, [get_luminance] and [get_voltage] write the
    single byte ['L'], consume one response and leave every attribute as it
    was; there is no retry and no second command. *)
Theorem measurement_is_one_exchange (w : World) :
  (mode (self w) = Some lit_current ->
   self (snd (get_luminance w)) = self (exchanged "L" w)) /\
  (mode (self w) = Some lit_voltage ->
   self (snd (get_voltage w)) = self (exchanged "L" w)) /\
  written (phot (self (exchanged "L" w)))
  = (written (phot (self w)) ++ "L")%string /\
  incoming (phot (self (exchanged "L" w))) = tl (incoming (phot (self w))).
Proof.
  split; [|split; [|split; reflexivity]]; intros Hm.
  - unfold get_luminance, bind at 1, getattr at 1. rewrite Hm.
    cbn [py_is lit_current str_id Nat.eqb negb].
    apply get_measurement_self.
  - unfold get_voltage, bind at 1, getattr at 1. rewrite Hm.
    cbn [py_is lit_voltage str_id Nat.eqb negb].
    apply get_measurement_self.
Qed.

Lemma measurement_is_one_exchange_witness :
  written (phot (self (snd (get_luminance
                              (snd (construct example_port lit_current))))))
  = (init_commands "I" ++ "L")%string.
Proof.
  rewrite (proj1 (measurement_is_one_exchange
                    (snd (construct example_port lit_current)))
             ltac:(vm_compute; reflexivity)).
  vm_compute. reflexivity.
Defined.

(** X15: in current mode, when [R_feed * K_cal] is zero the denominator is
    [0.0]: [get_luminance] never returns a value, and once the ADC read and
    the numerator have gone through it raises [ZeroDivisionError]. *)
Theorem luminance_zero_denominator (w : World) (r_feed k_cal : Z) :
  mode (self w) = Some lit_current ->
  R_feed (self w) = Some r_feed ->
  K_cal (self w) = Some k_cal ->
  r_feed * k_cal = 0 ->
  (forall x, fst (get_luminance w) <> inr x) /\
  (forall adc w1 v_ref adc_float v_float,
     _read_adc w = (inr adc, w1) ->
     V_ref (self w) = Some v_ref ->
     Float.of_int adc = inr adc_float ->
     Float.of_int v_ref = inr v_float ->
     fst (get_luminance w) = inl ZeroDivisionError).
Proof.
  intros Hm Hf Hk Hz.
  assert (E : get_luminance w = _get_measurement w).
  { unfold get_luminance, bind at 1, getattr at 1. rewrite Hm. reflexivity. }
  pose proof (keeps_read_adc w) as Hk'. unfold attributes in Hk'.
  rewrite E. unfold _get_measurement. split.
  - intros x. unfold bind at 1.
    destruct (_read_adc w) as [[e|adc] w1]; [discriminate|].
    cbn [snd] in Hk'. injection Hk' as Hm1 Hv1 _ Hf1 _ Hk1.
    rewrite Hm in Hm1. rewrite Hf in Hf1. rewrite Hk in Hk1.
    unfold bind, lift, getattr, ret, raise.
    destruct (Float.of_int adc); [discriminate|].
    destruct (Float.div _ _); [discriminate|].
    destruct (V_ref (self w1)); [|discriminate].
    destruct (Float.of_int _); [discriminate|].
    rewrite Hm1. cbn [py_is lit_current str_id Nat.eqb].
    rewrite Hf1, Hk1, Hz. cbn. discriminate.
  - intros adc w1 v_ref adc_float v_float Hadc Hv Ha Hvf.
    unfold bind at 1. rewrite Hadc in *.
    cbn [snd] in Hk'. injection Hk' as Hm1 Hv1 _ Hf1 _ Hk1.
    rewrite Hm in Hm1. rewrite Hf in Hf1. rewrite Hk in Hk1.
    unfold bind, lift, getattr, ret, raise. rewrite Ha.
    cbn [Float.div Float.lit_524288]. rewrite Hv1, Hv, Hvf, Hm1.
    cbn [py_is lit_current str_id Nat.eqb].
    rewrite Hf1, Hk1, Hz. reflexivity.
Qed.

Lemma luminance_zero_denominator_witness :
  let w := {| self :=
                {| phot := {| written := "";
                              incoming := [String "000" (String "000"
                                             (String "009" ACK))] |};
                   mode := Some lit_current; V_ref := Some 1000000;
                   Z_count := Some 0; R_feed := Some 0; R_gain := Some 1;
                   K_cal := Some 1000 |};
              stdout := [] |} in
  fst (get_luminance w) = inl ZeroDivisionError.
Proof.
  intros w.
  refine (proj2 (luminance_zero_denominator w 0 1000 _ _ _ _)
            65536 (snd (_read_adc w)) 1000000 _ _ _ _ _ _).
  all: vm_compute; reflexivity.
Defined.

(** ** More on the constructor *)

(** X16: the constructor compares the requested mode with the literals by
    identity.  A string object that is not one of the module's two literal
    objects is rejected even when its content is "current" or "voltage":
    the constructor never succeeds, and raises the unsupported-mode
    exception once calibration and the reference reads have gone through. *)
Theorem construct_compares_identity (port : Serial) (mode_ : pystr) :
  str_id mode_ <> str_id lit_current ->
  str_id mode_ <> str_id lit_voltage ->
  (forall w', construct port mode_ <> (inr tt, w')) /\
  (forall w1,
     (_calibrate ;; _read_ref_defs) (new_instance port) = (inr tt, w1) ->
     construct port mode_
     = (inl (OptiCalException (unsupported_mode mode_)), w1)).
Proof.
  intros Hc Hv.
  apply Nat.eqb_neq in Hc, Hv.
  unfold construct, __init__, py_is. rewrite Hc, Hv. unfold bind. split.
  - intros w'. destruct (_calibrate _) as [[e|[]] w1]; [discriminate|].
    destruct (_read_ref_defs _) as [[e|[]] w2]; discriminate.
  - intros w1 H. destruct (_calibrate _) as [[e|[]] w0]; [discriminate H|].
    rewrite H. reflexivity.
Qed.

(** A string built at run time with the content "current". *)
Lemma construct_compares_identity_witness :
  fst (construct example_port {| str_id := 9; str_value := "current" |})
  = inl (OptiCalException
           "Mode: 'current' is not supported by OptiCal, either use 'current'(default) or 'voltage'").
Proof.
  rewrite (proj2 (construct_compares_identity example_port
                    {| str_id := 9; str_value := "current" |}
                    ltac:(discriminate) ltac:(discriminate))
             (snd ((_calibrate ;; _read_ref_defs) (new_instance example_port)))
             ltac:(vm_compute; reflexivity)).
  reflexivity.
Defined.

Lemma decoded_bound (skip : nat) (responses : list string) :
  0 <= decoded skip 4 responses < 4294967296.
Proof.
  unfold decoded.
  pose proof (little_endian_sum_bound
                (map head_byte (firstn 4 (skipn skip responses)))) as Hb.
  rewrite length_map, length_firstn in Hb.
  assert (256 ^ Z.of_nat (Nat.min 4 (List.length (skipn skip responses)))
          <= 256 ^ 4).
  { apply Z.pow_le_mono_r; lia. }
  change (256 ^ 4) with 4294967296 in *. lia.
Qed.

(** X17: after a successful constructor each of the five calibration
    constants is a four-byte unsigned value: it lies in [0, 2^32). *)
Theorem constants_are_32_bit (port : Serial) (mode_ : pystr) (w' : World) :
  construct port mode_ = (inr tt, w') ->
  exists v z f g k,
    V_ref (self w') = Some v /\ Z_count (self w') = Some z /\
    R_feed (self w') = Some f /\ R_gain (self w') = Some g /\
    K_cal (self w') = Some k /\
    0 <= v < 4294967296 /\ 0 <= z < 4294967296 /\ 0 <= f < 4294967296 /\
    0 <= g < 4294967296 /\ 0 <= k < 4294967296.
Proof.
  intros H. apply construct_ok in H as (Hv & Hz & Hf & Hg & Hk & _).
  eexists _, _, _, _, _.
  repeat (split; [eassumption|]).
  repeat split; apply decoded_bound.
Qed.

Lemma constants_are_32_bit_witness :
  exists v z f g k,
    V_ref (self (snd (construct example_port lit_voltage))) = Some v /\
    Z_count (self (snd (construct example_port lit_voltage))) = Some z /\
    R_feed (self (snd (construct example_port lit_voltage))) = Some f /\
    R_gain (self (snd (construct example_port lit_voltage))) = Some g /\
    K_cal (self (snd (construct example_port lit_voltage))) = Some k /\
    0 <= v < 4294967296 /\ 0 <= z < 4294967296 /\ 0 <= f < 4294967296 /\
    0 <= g < 4294967296 /\ 0 <= k < 4294967296.
Proof.
  apply (constants_are_32_bit example_port lit_voltage).
  vm_compute. reflexivity.
Defined.

Lemma send_command_accepts (command description : string) (w : World)
  (r : string) (rest : list string) :
  incoming (phot (self w)) = r :: rest ->
  acceptable 1 r ->
  _send_command command description w = (inr tt, exchanged command w).
Proof.
  intros Hin [Hne Hn]. rewrite send_command_eq.
  rewrite (next_response_cons 1 w r rest Hin).
  apply check_return_pass; assumption.
Qed.

Lemma read_constant_forward {B : Type} (start stop : Z) (k : Z -> M B)
  (w : World) :
  0 <= start -> stop < 100 -> (0 < span start stop)%nat ->
  (span start stop <= List.length (incoming (phot (self w))))%nat ->
  Forall (acceptable 2) (firstn (span start stop) (incoming (phot (self w)))) ->
  (l <- _read_eeprom start stop ;; v <- to_int_value l ;; k v) w
  = k (decoded 0 (span start stop) (incoming (phot (self w))))
      (exchanged_all (map eeprom_command (Py.range start (stop + 1))) w).
Proof.
  intros Hs He Hpos Hlen Hok. unfold bind at 1, _read_eeprom.
  rewrite read_eeprom_loop_accepts; rewrite ?span_range;
    try assumption; [|apply range_valid; assumption].
  cbn [app]. unfold bind, to_int_value, lift.
  rewrite <- (map_map head_byte Py.char), to_int_chars; [reflexivity|].
  intros E. apply (f_equal (@List.length ascii)) in E.
  rewrite length_map, length_firstn in E. cbn [List.length] in E. lia.
Qed.

Lemma read_ref_defs_succeeds (w : World) :
  (20 <= List.length (incoming (phot (self w))))%nat ->
  Forall (acceptable 2) (firstn 20 (incoming (phot (self w)))) ->
  exists w2,
    _read_ref_defs w = (inr tt, w2) /\
    incoming (phot (self w2)) = skipn 20 (incoming (phot (self w))).
Proof.
  intros Hlen Hok. unfold _read_ref_defs.
  assert (Hblock : forall (n : nat) (start stop : Z) (k : Z -> M unit) (w1 : World),
             (n + 4 <= 20)%nat ->
             0 <= start -> stop < 100 -> span start stop = 4%nat ->
             incoming (phot (self w1)) = skipn n (incoming (phot (self w))) ->
             exists v,
               (l <- _read_eeprom start stop ;; v <- to_int_value l ;; k v) w1
               = k v (exchanged_all
                        (map eeprom_command (Py.range start (stop + 1))) w1) /\
               incoming (phot (self (exchanged_all
                           (map eeprom_command (Py.range start (stop + 1))) w1)))
               = skipn (n + 4) (incoming (phot (self w)))).
  { intros n start stop k w1 Hn Hs He Hspan Hin.
    eexists. split.
    - apply read_constant_forward; try assumption; rewrite ?Hspan, ?Hin.
      + lia.
      + rewrite length_skipn. lia.
      + rewrite <- (firstn_skipn n (firstn 20 (incoming (phot (self w)))))
          in Hok.
        apply Forall_app in Hok as [_ Hok].
        rewrite skipn_firstn_comm in Hok.
        replace (firstn 4 (skipn n (incoming (phot (self w)))))
          with (firstn 4 (firstn (20 - n)
                            (skipn n (incoming (phot (self w))))))
          by (rewrite firstn_firstn; f_equal; lia).
        apply Forall_forall. intros x Hx.
        rewrite Forall_forall in Hok. apply Hok.
        rewrite <- (firstn_skipn 4 (firstn (20 - n) _)).
        apply in_or_app. left. exact Hx.
    - rewrite exchanged_all_incoming, length_map, span_range, Hspan, Hin.
      rewrite skipn_skipn. f_equal. lia. }
  destruct (Hblock 0%nat 16 19
              (fun v => update_self (with_V_ref v) ;;
                        l <- _read_eeprom 32 35 ;; v <- to_int_value l ;;
                        update_self (with_Z_count v) ;;
                        l <- _read_eeprom 48 51 ;; v <- to_int_value l ;;
                        update_self (with_R_feed v) ;;
                        l <- _read_eeprom 64 67 ;; v <- to_int_value l ;;
                        update_self (with_R_gain v) ;;
                        l <- _read_eeprom 96 99 ;; v <- to_int_value l ;;
                        update_self (with_K_cal v)) w)
    as (v1 & -> & Hi1); try reflexivity; try lia.
  unfold bind at 1, update_self at 1. cbv beta iota.
  match goal with |- context [bind _ _ ?W] => set (w1 := W) end.
  destruct (Hblock 4%nat 32 35
              (fun v => update_self (with_Z_count v) ;;
                        l <- _read_eeprom 48 51 ;; v <- to_int_value l ;;
                        update_self (with_R_feed v) ;;
                        l <- _read_eeprom 64 67 ;; v <- to_int_value l ;;
                        update_self (with_R_gain v) ;;
                        l <- _read_eeprom 96 99 ;; v <- to_int_value l ;;
                        update_self (with_K_cal v)) w1)
    as (v2 & -> & Hi2); try reflexivity; try lia; [exact Hi1|].
  clearbody w1. clear Hi1.
  unfold bind at 1, update_self at 1. cbv beta iota.
  match goal with |- context [bind _ _ ?W] => set (w2 := W) end.
  destruct (Hblock 8%nat 48 51
              (fun v => update_self (with_R_feed v) ;;
                        l <- _read_eeprom 64 67 ;; v <- to_int_value l ;;
                        update_self (with_R_gain v) ;;
                        l <- _read_eeprom 96 99 ;; v <- to_int_value l ;;
                        update_self (with_K_cal v)) w2)
    as (v3 & -> & Hi3); try reflexivity; try lia; [exact Hi2|].
  clearbody w2. clear Hi2.
  unfold bind at 1, update_self at 1. cbv beta iota.
  match goal with |- context [bind _ _ ?W] => set (w3 := W) end.
  destruct (Hblock 12%nat 64 67
              (fun v => update_self (with_R_gain v) ;;
                        l <- _read_eeprom 96 99 ;; v <- to_int_value l ;;
                        update_self (with_K_cal v)) w3)
    as (v4 & -> & Hi4); try reflexivity; try lia; [exact Hi3|].
  clearbody w3. clear Hi3.
  unfold bind at 1, update_self at 1. cbv beta iota.
  match goal with |- context [bind _ _ ?W] => set (w4 := W) end.
  destruct (Hblock 16%nat 96 99 (fun v => update_self (with_K_cal v)) w4)
    as (v5 & -> & Hi5); try reflexivity; try lia; [exact Hi4|].
  clearbody w4. clear Hi4.
  unfold update_self. eexists. split; [reflexivity|]. exact Hi5.
Qed.

(** X18: the constructor succeeds whenever the device answers: a response
    that passes the validator for calibration, for each of the twenty
    eeprom reads and for the mode command is all it takes, provided the
    mode is one of the two literals. *)
Theorem construct_succeeds (port : Serial) (mode_ : pystr)
  (r0 rm : string) (rs rest : list string) :
  incoming port = r0 :: rs ++ rm :: rest ->
  acceptable 1 r0 ->
  List.length rs = 20%nat ->
  Forall (acceptable 2) rs ->
  acceptable 1 rm ->
  py_is mode_ lit_current = true \/ py_is mode_ lit_voltage = true ->
  fst (construct port mode_) = inr tt /\
  incoming (phot (self (snd (construct port mode_)))) = rest.
Proof.
  intros Hin H0 Hlen Hrs Hm Hmode.
  assert (E : exists w',
             construct port mode_ = (inr tt, w') /\
             incoming (phot (self w')) = rest).
  { unfold construct, __init__. unfold bind at 1. unfold _calibrate.
    rewrite (send_command_accepts "C" "calibrate" (new_instance port) r0
               (rs ++ rm :: rest) Hin H0).
    destruct (read_ref_defs_succeeds (exchanged "C" (new_instance port)))
      as (w2 & Hr & Hi2).
    - cbn [exchanged new_instance self phot with_phot incoming].
      rewrite Hin. cbn [tl]. rewrite length_app, Hlen. lia.
    - cbn [exchanged new_instance self phot with_phot incoming].
      rewrite Hin. cbn [tl].
      rewrite firstn_app, Hlen, Nat.sub_diag, firstn_O, app_nil_r.
      rewrite firstn_all2 by lia. exact Hrs.
    - unfold bind at 1. rewrite Hr.
      cbn [exchanged new_instance self phot with_phot incoming] in Hi2.
      rewrite Hin in Hi2. cbn [tl] in Hi2.
      rewrite skipn_app, Hlen, Nat.sub_diag, skipn_all2 in Hi2 by lia.
      cbn [skipn app] in Hi2.
      assert (Hset : forall m c d,
                 (update_self (with_mode m) ;; _send_command c d) w2
                 = (inr tt,
                    exchanged c {| self := with_mode m (self w2);
                                   stdout := stdout w2 |})).
      { intros m c d. unfold bind, update_self.
        apply (send_command_accepts c d _ rm rest); [exact Hi2 | exact Hm]. }
      destruct (py_is mode_ lit_current).
      + unfold _set_current_mode. rewrite Hset. eexists. split; [reflexivity|].
        cbn [exchanged self phot with_phot with_mode incoming].
        rewrite Hi2. reflexivity.
      + destruct Hmode as [Hc|Hv]; [discriminate Hc|]. rewrite Hv.
        unfold _set_voltage_mode. rewrite Hset. eexists.
        split; [reflexivity|].
        cbn [exchanged self phot with_phot with_mode incoming].
        rewrite Hi2. reflexivity. }
  destruct E as (w' & -> & Hrest). split; [reflexivity | exact Hrest].
Qed.

Lemma construct_succeeds_witness :
  fst (construct example_port lit_voltage) = inr tt.
Proof.
  refine (proj1 (construct_succeeds example_port lit_voltage
                   ACK ACK
                   (map (fun n => String (ascii_of_N n) ACK)
                      [64; 66; 15; 0;  0; 0; 0; 0;  1; 0; 0; 0;  1; 0; 0; 0;
                       232; 3; 0; 0]%N)
                   [String "000" (String "000" (String "009" ACK))]
                   _ _ _ _ _ _)).
  - reflexivity.
  - apply acceptable_test. reflexivity.
  - reflexivity.
  - apply acceptable_all. vm_compute. reflexivity.
  - apply acceptable_test. reflexivity.
  - right. reflexivity.
Defined.

(** ** What the exceptions say *)

(** X19: the text of the exception raised by a rejected eeprom read names
    the kind of failure and the address: "OptiCal timeout while trying to:
    reading eeprom at address N" when nothing arrived, "OptiCal sent a NACK
    while trying to: reading eeprom at address N" otherwise. *)
Theorem eeprom_error_names_address (address : Z) (w : World) :
  0 <= address < 100 ->
  ~ acceptable 2 (hd EmptyString (incoming (phot (self w)))) ->
  exists e,
    fst (_read_eeprom_single address w) = inl e /\
    exn_str e
    = Some ((if String.eqb (next_response 2 w) EmptyString
             then "OptiCal timeout while trying to: "
             else "OptiCal sent a NACK while trying to: ")
            ++ "reading eeprom at address " ++ Py.str_of_int address)%string.
Proof.
  intros Ha Hbad.
  rewrite (read_eeprom_single_rejects address w Ha Hbad).
  eexists. split; [reflexivity|].
  assert (E : next_response 2 w
              = String.substring 0 2 (hd EmptyString (incoming (phot (self w))))).
  { unfold next_response, Serial_read.
    destruct (incoming (phot (self w))); reflexivity. }
  rewrite E. unfold rejection.
  destruct (String.eqb _ _); reflexivity.
Qed.

Lemma eeprom_error_names_address_witness :
  exists e,
    fst (_read_eeprom_single 32
           (new_instance
              {| written := ""; incoming := [String "A" NACK] |})) = inl e /\
    exn_str e
    = Some "OptiCal sent a NACK while trying to: reading eeprom at address 32"%string.
Proof.
  refine (eeprom_error_names_address 32
            (new_instance {| written := ""; incoming := [String "A" NACK] |})
            _ _).
  - lia.
  - apply unacceptable_test. reflexivity.
Defined.

(** ** The identification reads *)

Lemma read_eeprom_length (start stop : Z) (w w' : World) (l : list string) :
  0 <= start -> stop < 100 ->
  _read_eeprom start stop w = (inr l, w') ->
  List.length l = span start stop.
Proof.
  intros Hs He H. unfold _read_eeprom in H.
  apply read_eeprom_loop_ok in H as (_ & -> & Hlen);
    [|apply range_valid; assumption].
  rewrite span_range in *. cbn [app].
  rewrite length_map, length_firstn, Nat.min_l by exact Hlen. reflexivity.
Qed.

(** X20: each of the nine eeprom getters, when it returns, returns exactly
    as many bytes as its field is wide: 2 for the product type and the
    firmware version, 16 for the probe serial number, 4 for the unit serial
    number and for each of the five calibration fields. *)
Theorem getters_return_field_width (w w' : World) (l : list string) :
  (_read_product_type w = (inr l, w') -> List.length l = 2%nat) /\
  (_read_optical_serial_number w = (inr l, w') -> List.length l = 4%nat) /\
  (_read_firmware_version w = (inr l, w') -> List.length l = 2%nat) /\
  (_read_probe_serial_number w = (inr l, w') -> List.length l = 16%nat) /\
  (_read_ref_voltage w = (inr l, w') -> List.length l = 4%nat) /\
  (_read_zero_error w = (inr l, w') -> List.length l = 4%nat) /\
  (_read_feedback_resistor w = (inr l, w') -> List.length l = 4%nat) /\
  (_read_voltage_gain_resistor w = (inr l, w') -> List.length l = 4%nat) /\
  (_read_probe_calibration w = (inr l, w') -> List.length l = 4%nat).
Proof.
  repeat split; intros H;
    apply read_eeprom_length in H; try lia; exact H.
Qed.

Lemma getters_return_field_width_witness :
  List.length
    (map (fun n => Py.char (ascii_of_N n)) [64; 66; 15; 0]%N) = 4%nat.
Proof.
  refine (proj1 (proj2 (proj2 (proj2 (proj2
            (getters_return_field_width
               (exchanged "C" (new_instance example_port)) _ _))))) _).
  vm_compute. reflexivity.
Defined.
